(** * snort3 fragment: HTTP/2 frame splitter and PDF tokenizer

    A shallow embedding of
    - [src/unnamed/part_001] (http2_stream_splitter_impl.cc): [validate_preface],
      [non_data_scan], [data_scan], [implement_scan], [implement_reassemble];
    - [src/src/js_norm/pdf_tokenizer.l]: the semantic actions of the PDF lexer
      ([h_dict_open], [h_dict_close], [h_stream_close], [u16_eval],
      [u16_to_u8], ...) and the rule table that calls them.

    Integers of the C++ code are [Z] with the wrap-around written out, bytes
    are [Z] in [0, 256), buffers are [list Z]. *)

From Stdlib Require Import String Ascii.
From stdpp Require Import base numbers list gmap.

Open Scope Z_scope.

(** ** Machine integers *)

(** Value of an unsigned [w]-bit object after a store of [x]. *)
Definition trunc (w x : Z) : Z := x mod 2 ^ w.

Definition wrap32 (x : Z) : Z := trunc 32 x.

(** [(char)x] / [(uint8_t)x]: the low eight bits. *)
Definition to_char (x : Z) : Z := trunc 8 x.

Definition len (l : list Z) : Z := Z.of_nat (length l).

(** The bytes of an ASCII text. *)
Definition bytes (s : string) : list Z :=
  map (fun c => Z.of_N (N_of_ascii c)) (list_ascii_of_string s).

Lemma trunc_small (w x : Z) : 0 <= x < 2 ^ w -> trunc w x = x.
Proof. intros H. unfold trunc. apply Z.mod_small. exact H. Qed.

Lemma pow2_mono (a b : Z) : 0 <= a <= b -> 2 ^ a <= 2 ^ b.
Proof. intros H. apply Z.pow_le_mono_r; lia. Qed.

(** * Part I: the PDF tokenizer (pdf_tokenizer.l) *)

Module PDF.

(** [PDFTokenizer::PDFRet]. The enum is declared in pdf_tokenizer.h; the
    enumerators below are the ones the lexer file returns.  [EXEC(f)] returns
    from [yylex] when [f] is non-zero, i.e. different from [EOS]. *)
Inductive PDFRet : Type :=
  | EOS
  | NOT_NAME_IN_DICTIONARY_KEY
  | INCOMPLETE_ARRAY_IN_DICTIONARY
  | STREAM_NO_LENGTH
  | UNEXPECTED_SYMBOL.

Definition PDFRet_eqb (a b : PDFRet) : bool :=
  match a, b with
  | EOS, EOS | NOT_NAME_IN_DICTIONARY_KEY, NOT_NAME_IN_DICTIONARY_KEY
  | INCOMPLETE_ARRAY_IN_DICTIONARY, INCOMPLETE_ARRAY_IN_DICTIONARY
  | STREAM_NO_LENGTH, STREAM_NO_LENGTH
  | UNEXPECTED_SYMBOL, UNEXPECTED_SYMBOL => true
  | _, _ => false
  end.

(** ** UTF-16BE decoding *)

(** [u16_state]: the struct is declared in pdf_tokenizer.h, which is not part
    of the source tree at hand; the width of [high] and [low] is therefore a
    parameter [w] of every function that stores into them. *)
Record U16State : Type := mkU16 { high : Z; low : Z; cur_byte : Z }.

Definition u16_init : U16State := mkU16 0 0 0.

(** Outcome of a call that may trip an [assert]. *)
Inductive Checked (A : Type) : Type :=
  | Done (a : A)
  | AssertFailed.
Arguments Done {A} a.
Arguments AssertFailed {A}.

(** [u16_to_u8]: the bytes appended to [yyout], or the failed assertion
    [assert(code <= 0x1fffff)]. *)
Definition u16_to_u8 (code : Z) : Checked (list Z) :=
  if 0x1fffff <? code then AssertFailed
  else if code <=? 0x7f then Done [to_char code]
  else if code <=? 0x7ff then
    Done [to_char (Z.lor 0xc0 (code ≫ 6));
          to_char (Z.lor 0x80 (Z.land code 0x3f))]
  else if code <=? 0xffff then
    Done [to_char (Z.lor 0xe0 (code ≫ 12));
          to_char (Z.lor 0x80 (Z.land (code ≫ 6) 0x3f));
          to_char (Z.lor 0x80 (Z.land code 0x3f))]
  else
    Done [to_char (Z.lor 0xf0 (code ≫ 18));
          to_char (Z.lor 0x80 (Z.land (code ≫ 12) 0x3f));
          to_char (Z.lor 0x80 (Z.land (code ≫ 6) 0x3f));
          to_char (Z.lor 0x80 (Z.land code 0x3f))].

(** What one call of [u16_eval] does: the value returned, the new
    accumulator, and the argument of the call to [u16_to_u8] it made, if
    any. *)
Record U16Step : Type := mkStep {
  step_ret : PDFRet;
  step_state : U16State;
  step_code : option Z
}.

Definition u16_eval_step (w : Z) (st : U16State) (byte : Z) : Checked U16Step :=
  if cur_byte st =? 0 then
    Done (mkStep EOS (mkU16 (trunc w byte) (low st) 1) None)
  else if cur_byte st =? 1 then
    let h := trunc w (Z.lor (high st ≪ 8) byte) in
    if h <? 0xd800 then
      Done (mkStep EOS (mkU16 h (low st) 0) (Some (wrap32 h)))
    else
      Done (mkStep EOS (mkU16 (trunc w ((h - 0xd800) * 0x400)) (low st) 2) None)
  else if cur_byte st =? 2 then
    Done (mkStep EOS (mkU16 (high st) (trunc w byte) 3) None)
  else if cur_byte st =? 3 then
    let l := trunc w (Z.lor (low st ≪ 8) byte) in
    if l <? 0xdc00 then
      Done (mkStep UNEXPECTED_SYMBOL (mkU16 (high st) l 0) None)
    else
      let l' := trunc w (l - 0xdc00) in
      Done (mkStep EOS (mkU16 (high st) l' 0)
              (Some (wrap32 (Z.lor (high st) l' + 0x10000))))
  else AssertFailed.

(** [u16_eval]: the step, with the call to [u16_to_u8] carried out on the
    output [out]. *)
Definition u16_eval (w : Z) (st : U16State) (out : list Z) (byte : Z)
  : Checked (PDFRet * U16State * list Z) :=
  match u16_eval_step w st byte with
  | AssertFailed => AssertFailed
  | Done r =>
      match step_code r with
      | None => Done (step_ret r, step_state r, out)
      | Some code =>
          match u16_to_u8 code with
          | AssertFailed => AssertFailed
          | Done bs => Done (step_ret r, step_state r, out ++ bs)
          end
      end
  end.

(** The loop of [h_lit_u16]: [u16_eval] on every byte of [yytext], leaving
    at the first non-[EOS] result ([EXEC]). *)
Fixpoint u16_feed (w : Z) (st : U16State) (out : list Z) (text : list Z)
  : Checked (PDFRet * U16State * list Z) :=
  match text with
  | [] => Done (EOS, st, out)
  | b :: text' =>
      match u16_eval w st out b with
      | AssertFailed => AssertFailed
      | Done (EOS, st', out') => u16_feed w st' out' text'
      | Done r => Done r
      end
  end.

(** ** Lexer state *)

(** Start conditions, as declared by the [%x] lines (plus flex's INITIAL). *)
Inductive StartCond : Type :=
  | INITIAL | indobj | stream | dictnr | litstr | hexstr
  | jslstr | jshstr | jsstream
  | u16 | u16hex | jsstru16 | jshstru16 | jsstreamu16.

Definition StartCond_eqb (a b : StartCond) : bool :=
  match a, b with
  | INITIAL, INITIAL | indobj, indobj | stream, stream | dictnr, dictnr
  | litstr, litstr | hexstr, hexstr | jslstr, jslstr | jshstr, jshstr
  | jsstream, jsstream | u16, u16 | u16hex, u16hex | jsstru16, jsstru16
  | jshstru16, jshstru16 | jsstreamu16, jsstreamu16 => true
  | _, _ => false
  end.

Record ObjectDictionary : Type := mkDict { key_value : bool; array_level : Z }.

Record Stream : Type := mkStream { rem_length : Z; is_js : bool }.

(** The members of [PDFTokenizer] the lexer file reads and writes, the flex
    start-condition stack ([%option stack]) and the output stream [yyout]. *)
Record Tokenizer : Type := mkTok {
  yy_start : StartCond;
  yy_start_stack : list StartCond;
  parenthesis_level : Z;
  nesting_level : Z;
  obj_dictionary : ObjectDictionary;
  obj_entry_key : list Z;
  obj_stream : Stream;
  js_stream_refs : gset Z;
  u16_state : U16State;
  yyout : list Z
}.

Definition set_start (c : StartCond) (k : list StartCond) (t : Tokenizer) :=
  mkTok c k (parenthesis_level t) (nesting_level t) (obj_dictionary t)
    (obj_entry_key t) (obj_stream t) (js_stream_refs t) (u16_state t) (yyout t).

Definition set_parenthesis_level (v : Z) (t : Tokenizer) :=
  mkTok (yy_start t) (yy_start_stack t) v (nesting_level t) (obj_dictionary t)
    (obj_entry_key t) (obj_stream t) (js_stream_refs t) (u16_state t) (yyout t).

Definition set_nesting_level (v : Z) (t : Tokenizer) :=
  mkTok (yy_start t) (yy_start_stack t) (parenthesis_level t) v
    (obj_dictionary t) (obj_entry_key t) (obj_stream t) (js_stream_refs t)
    (u16_state t) (yyout t).

Definition set_dictionary (d : ObjectDictionary) (t : Tokenizer) :=
  mkTok (yy_start t) (yy_start_stack t) (parenthesis_level t) (nesting_level t)
    d (obj_entry_key t) (obj_stream t) (js_stream_refs t) (u16_state t)
    (yyout t).

Definition set_entry_key (k : list Z) (t : Tokenizer) :=
  mkTok (yy_start t) (yy_start_stack t) (parenthesis_level t) (nesting_level t)
    (obj_dictionary t) k (obj_stream t) (js_stream_refs t) (u16_state t)
    (yyout t).

Definition set_stream (s : Stream) (t : Tokenizer) :=
  mkTok (yy_start t) (yy_start_stack t) (parenthesis_level t) (nesting_level t)
    (obj_dictionary t) (obj_entry_key t) s (js_stream_refs t) (u16_state t)
    (yyout t).

Definition set_refs (r : gset Z) (t : Tokenizer) :=
  mkTok (yy_start t) (yy_start_stack t) (parenthesis_level t) (nesting_level t)
    (obj_dictionary t) (obj_entry_key t) (obj_stream t) r (u16_state t)
    (yyout t).

Definition set_u16 (u : U16State) (t : Tokenizer) :=
  mkTok (yy_start t) (yy_start_stack t) (parenthesis_level t) (nesting_level t)
    (obj_dictionary t) (obj_entry_key t) (obj_stream t) (js_stream_refs t) u
    (yyout t).

Definition set_yyout (o : list Z) (t : Tokenizer) :=
  mkTok (yy_start t) (yy_start_stack t) (parenthesis_level t) (nesting_level t)
    (obj_dictionary t) (obj_entry_key t) (obj_stream t) (js_stream_refs t)
    (u16_state t) o.

(** [ECHO] and [yyout << c]. *)
Definition echo (text : list Z) (t : Tokenizer) : Tokenizer :=
  set_yyout (yyout t ++ text) t.

(** What pdf_tokenizer.h contributes and the lexer file only uses: the size
    of [obj_entry.key], the width of the UTF-16 accumulators,
    [ObjectDictionary::clear] and the inline handlers that have no body in
    the lexer file. *)
Record Header : Type := mkHeader {
  key_size : nat;
  u16_bits : Z;
  dict_clear : ObjectDictionary -> ObjectDictionary;
  h_lit_str : Tokenizer -> bool;
  h_hex_str : Tokenizer -> bool;
  h_lit_open : Tokenizer -> bool * Tokenizer;
  h_lit_close : Tokenizer -> bool * Tokenizer;
  h_ind_obj_close : Tokenizer -> Tokenizer
}.

(** What an action leaves behind: the scanner goes on with the next match,
    [yylex] returns, or the process dies ([YY_FATAL_ERROR], a failed
    [assert]). *)
Inductive Outcome : Type :=
  | Continue (t : Tokenizer)
  | Return (r : PDFRet) (t : Tokenizer)
  | Fatal.

(** [PUSH(x)] is [yy_push_state(x)], [POP()] is [yy_pop_state()]; popping an
    empty stack is flex's fatal "start-condition stack underflow". *)
Definition PUSH (c : StartCond) (t : Tokenizer) : Tokenizer :=
  set_start c (yy_start t :: yy_start_stack t) t.

Definition POP (t : Tokenizer) : option Tokenizer :=
  match yy_start_stack t with
  | [] => None
  | c :: k => Some (set_start c k t)
  end.

Definition pop_then (t : Tokenizer) (k : Tokenizer -> Outcome) : Outcome :=
  match POP t with
  | None => Fatal
  | Some t' => k t'
  end.

(** [EXEC(f)]: leave [yylex] with [f]'s value unless it is [EOS]. *)
Definition EXEC (r : PDFRet * Tokenizer) (k : Tokenizer -> Outcome) : Outcome :=
  match r with
  | (EOS, t) => k t
  | (e, t) => Return e t
  end.

(** ** Text helpers: [atoi], [sscanf], [literal_unescape] *)

Definition is_space (c : Z) : bool :=
  (c =? 32) || ((9 <=? c) && (c <=? 13)).

Definition is_digit (c : Z) : bool := (48 <=? c) && (c <=? 57).

Fixpoint digits_value (acc : Z) (text : list Z) : Z :=
  match text with
  | c :: text' =>
      if is_digit c then digits_value (acc * 10 + (c - 48)) text' else acc
  | [] => acc
  end.

Fixpoint skip_spaces (text : list Z) : list Z :=
  match text with
  | c :: text' => if is_space c then skip_spaces text' else text
  | [] => []
  end.

(** [atoi]: blanks, an optional sign, decimal digits.  The result is kept
    as a mathematical integer (a value outside [int] is undefined in C). *)
Definition atoi (text : list Z) : Z :=
  match skip_spaces text with
  | 45 :: rest => - digits_value 0 rest
  | 43 :: rest => digits_value 0 rest
  | rest => digits_value 0 rest
  end.

Definition hex_digit (c : Z) : Z :=
  if is_digit c then c - 48
  else if (97 <=? c) && (c <=? 102) then c - 87
  else if (65 <=? c) && (c <=? 70) then c - 55
  else 0.

Fixpoint octal_value (acc : Z) (text : list Z) : Z :=
  match text with
  | c :: text' =>
      if (48 <=? c) && (c <=? 55) then octal_value (acc * 8 + (c - 48)) text'
      else acc
  | [] => acc
  end.

Definition literal_unescape (input : Z) : Z :=
  if input =? 110 then 10          (* 'n' -> '\n' *)
  else if input =? 114 then 13     (* 'r' -> '\r' *)
  else if input =? 116 then 9      (* 't' -> '\t' *)
  else if input =? 98 then 8       (* 'b' -> '\b' *)
  else if input =? 102 then 12     (* 'f' -> '\f' *)
  else input.

(** ["/Length"] and ["/JS"] as bytes. *)
Definition key_Length : list Z := [47; 76; 101; 110; 103; 116; 104].
Definition key_JS : list Z := [47; 74; 83].

(** Bytes denoted by a run of hexadecimal digits, as the loops of
    [h_hex_hex2chr] and [h_hex_hex2chr_u16] read it: two digits a byte
    ([sscanf "%02x"]), a trailing single digit shifted left by four. *)
Fixpoint hex_bytes (text : list Z) : list Z :=
  match text with
  | a :: b :: text' => to_char (hex_digit a * 16 + hex_digit b) :: hex_bytes text'
  | [a] => [to_char (hex_digit a ≪ 4)]
  | [] => []
  end.

(** ** Semantic handlers (the functions after the second [%%]) *)

Definition h_dict_open (hdr : Header) (t : Tokenizer) : PDFRet * Tokenizer :=
  let d := dict_clear hdr (obj_dictionary t) in
  (EOS, set_dictionary (mkDict (key_value d) (nesting_level t)) t).

Definition h_dict_close (hdr : Header) (t : Tokenizer) : PDFRet * Tokenizer :=
  let t' := set_dictionary (dict_clear hdr (obj_dictionary t)) t in
  if array_level (obj_dictionary t') =? nesting_level t' then (EOS, t')
  else (INCOMPLETE_ARRAY_IN_DICTIONARY, t').

Definition flip_key_value (t : Tokenizer) : Tokenizer :=
  set_dictionary
    (mkDict (negb (key_value (obj_dictionary t))) (array_level (obj_dictionary t)))
    t.

Definition h_dict_other (t : Tokenizer) : PDFRet * Tokenizer :=
  if negb (array_level (obj_dictionary t) =? nesting_level t) then (EOS, t)
  else if key_value (obj_dictionary t) then (NOT_NAME_IN_DICTIONARY_KEY, t)
  else (EOS, flip_key_value t).

(** [strncpy(obj_entry.key, yytext, sizeof(obj_entry.key) - 1)]: the key read
    back as a C string (a name holds no NUL byte). *)
Definition h_dict_name (hdr : Header) (text : list Z) (t : Tokenizer)
  : PDFRet * Tokenizer :=
  if negb (array_level (obj_dictionary t) =? nesting_level t) then (EOS, t)
  else
    let t1 :=
      if key_value (obj_dictionary t)
      then set_entry_key (take (key_size hdr - 1) text) t
      else t in
    (EOS, flip_key_value t1).

Definition h_lit_unescape (text : list Z) (t : Tokenizer) : Outcome :=
  match text with
  | [92; c] => Continue (echo [to_char (literal_unescape c)] t)
  | _ => Fatal
  end.

Definition h_lit_oct2chr (text : list Z) (t : Tokenizer) : Outcome :=
  match text with
  | 92 :: digits =>
      if (0 <? len text) && (len text <? 5)
      then Continue (echo [to_char (octal_value 0 digits)] t)
      else Fatal
  | _ => Fatal
  end.

Definition h_hex_hex2chr (text : list Z) (t : Tokenizer) : PDFRet * Tokenizer :=
  (EOS, echo (hex_bytes text) t).

(** The [EXEC(u16_eval(..))] loops, on the accumulator and output of [t]. *)
Definition u16_run (hdr : Header) (bytes : list Z) (t : Tokenizer)
  (k : Tokenizer -> Outcome) : Outcome :=
  match u16_feed (u16_bits hdr) (u16_state t) (yyout t) bytes with
  | AssertFailed => Fatal
  | Done (EOS, st, out) => k (set_yyout out (set_u16 st t))
  | Done (e, st, out) => Return e (set_yyout out (set_u16 st t))
  end.

Definition h_hex_hex2chr_u16 (hdr : Header) (text : list Z) (t : Tokenizer)
  (k : Tokenizer -> Outcome) : Outcome :=
  u16_run hdr (hex_bytes text) t k.

Definition h_lit_u16 (hdr : Header) (text : list Z) (t : Tokenizer)
  (k : Tokenizer -> Outcome) : Outcome :=
  u16_run hdr text t k.

Definition h_lit_u16_unescape (hdr : Header) (text : list Z) (t : Tokenizer)
  (k : Tokenizer -> Outcome) : Outcome :=
  match text with
  | [_; c] => u16_run hdr [to_char (literal_unescape c)] t k
  | _ => Fatal
  end.

Definition h_stream_open (t : Tokenizer) : PDFRet * Tokenizer :=
  if rem_length (obj_stream t) <? 0 then (STREAM_NO_LENGTH, t) else (EOS, t).

Definition sub_rem_length (n : Z) (t : Tokenizer) : Tokenizer :=
  set_stream (mkStream (rem_length (obj_stream t) - n) (is_js (obj_stream t))) t.

Definition h_stream (text : list Z) (t : Tokenizer) : PDFRet * Tokenizer :=
  (EOS, sub_rem_length (len text) t).

Definition h_stream_close (text : list Z) (t : Tokenizer) : bool * Tokenizer :=
  let t1 := sub_rem_length (len text) t in
  if rem_length (obj_stream t1) <=? 0 then
    (true, if StartCond_eqb (yy_start t1) jsstream then echo [10] t1 else t1)
  else
    (false, if StartCond_eqb (yy_start t1) jsstream then echo text t1 else t1).

Definition h_stream_length (text : list Z) (t : Tokenizer) : Tokenizer :=
  if bool_decide (obj_entry_key t = key_Length)
  then set_stream (mkStream (atoi text) (is_js (obj_stream t))) t
  else t.

Definition h_ref (text : list Z) (t : Tokenizer) : Tokenizer :=
  if bool_decide (obj_entry_key t = key_JS)
  then set_refs ({[ atoi text ]} ∪ js_stream_refs t) t
  else t.

Definition h_ind_obj_open (text : list Z) (t : Tokenizer) : Tokenizer :=
  if bool_decide (atoi text ∈ js_stream_refs t)
  then set_stream (mkStream (rem_length (obj_stream t)) true) t
  else t.

Definition h_u16_start (t : Tokenizer) : Outcome :=
  pop_then t (fun t1 =>
    match yy_start t1 with
    | jslstr => pop_then t1 (fun t2 => Continue (PUSH jsstru16 t2))
    | indobj => pop_then t1 (fun t2 => Continue (PUSH jsstreamu16 t2))
    | _ => Fatal
    end).

Definition h_u16_break (t : Tokenizer) : Outcome :=
  pop_then t (fun t1 =>
    match yy_start t1 with
    | indobj => Continue (PUSH jsstream t1)
    | jslstr => Continue t1
    | _ => Fatal
    end).

Definition h_u16_hex_start (t : Tokenizer) : Outcome :=
  pop_then t (fun t1 =>
    match yy_start t1 with
    | jshstr => pop_then t1 (fun t2 => Continue (PUSH jshstru16 t2))
    | _ => Fatal
    end).

Definition h_u16_hex_break (t : Tokenizer) : Outcome :=
  pop_then t (fun t1 =>
    match yy_start t1 with
    | jshstr => Continue t1
    | _ => Fatal
    end).

(** ** The rules section *)

(** The patterns of the rules section.  [LIT_STR_ESC_EOL_WS] is
    [{LIT_STR_ESC_EOL}{WHITESPACE}]; [U16_ANY] and [U16HEX_ANY] are the
    [.|\n] rules of the two probe states; [ANY] is the last rule,
    [<*>.|\n]; [EOF] is [<*><<EOF>>]. *)
Inductive Pattern : Type :=
  | SKIP | COMMENT | INDIRECT_OBJ_OPEN | WHITESPACE | INDIRECT_OBJ_CLOSE
  | OBJ_STREAM_OPEN | OBJ_STREAM_SKIP | OBJ_STREAM_CLOSE
  | OBJ_DICT_OPEN | OBJ_DICT_CLOSE | OBJ_REFERENCE | OBJ_BOOLEAN
  | OBJ_INT_NUM | OBJ_REL_NUM | OBJ_NULL | OBJ_NAME
  | OBJ_ARRAY_OPEN | OBJ_ARRAY_CLOSE | OBJ_LIT_STR_OPEN | OBJ_HEX_STR_OPEN
  | OBJ_DICT_SKIP | OBJ_LIT_STR_CLOSE | LIT_STR_ESC | LIT_STR_ESC_OCT
  | LIT_STR_ESC_EOL | LIT_STR_ESC_EOL_WS | LIT_STR_EOL | LIT_STR_BODY
  | OBJ_HEX_STR_CLOSE | HEX_STR_BODY | HEX_STR_SKIP
  | U16_BOM | U16_ANY | LIT_STR_U16_UNESC | LIT_STR_U16_BODY
  | U16_BOM_HEX | U16HEX_ANY
  | EOF | ANY.

(** One firing of the scanner: the rule's pattern and the text it matched
    ([yytext]; [yyleng] is its length). *)
Definition Match : Type := (Pattern * list Z)%type.

(** The action flex runs when, in start condition [YY_START], the rule with
    pattern [p] matched [text]; [None] when the rules section has no rule
    with this pattern for the start condition. *)
Definition rule_action (hdr : Header) (p : Pattern) (text : list Z)
  (t : Tokenizer) : option Outcome :=
  match p, yy_start t with
  | EOF, _ => Some (Return EOS t)
  | ANY, _ => Some (Return UNEXPECTED_SYMBOL t)
  | SKIP, INITIAL | COMMENT, INITIAL => Some (Continue t)
  | INDIRECT_OBJ_OPEN, INITIAL =>
      Some (Continue (h_ind_obj_open text (PUSH indobj t)))
  | COMMENT, indobj | WHITESPACE, indobj => Some (Continue t)
  | INDIRECT_OBJ_CLOSE, indobj =>
      Some (pop_then t (fun t1 => Continue (h_ind_obj_close hdr t1)))
  | OBJ_STREAM_OPEN, indobj =>
      Some (EXEC (h_stream_open t) (fun t1 =>
        Continue (PUSH (if is_js (obj_stream t1) then u16 else stream) t1)))
  | OBJ_STREAM_SKIP, stream =>
      Some (EXEC (h_stream text t) Continue)
  | OBJ_STREAM_SKIP, jsstream =>
      Some (EXEC (h_stream text t) (fun t1 => Continue (echo text t1)))
  | OBJ_STREAM_SKIP, jsstreamu16 =>
      Some (EXEC (h_stream text t) (fun t1 => h_lit_u16 hdr text t1 Continue))
  | OBJ_STREAM_CLOSE, stream
  | OBJ_STREAM_CLOSE, jsstream
  | OBJ_STREAM_CLOSE, jsstreamu16 =>
      Some (match h_stream_close text t with
            | (true, t1) => pop_then t1 Continue
            | (false, t1) => Continue t1
            end)
  | OBJ_DICT_OPEN, dictnr | OBJ_DICT_OPEN, indobj =>
      Some (EXEC (h_dict_open hdr (PUSH dictnr t)) Continue)
  | OBJ_DICT_CLOSE, dictnr =>
      Some (pop_then t (fun t1 => EXEC (h_dict_close hdr t1) Continue))
  | COMMENT, dictnr | WHITESPACE, dictnr => Some (Continue t)
  | OBJ_REFERENCE, dictnr =>
      Some (EXEC (h_dict_other t) (fun t1 => Continue (h_ref text t1)))
  | OBJ_BOOLEAN, dictnr | OBJ_REL_NUM, dictnr | OBJ_NULL, dictnr =>
      Some (EXEC (h_dict_other t) Continue)
  | OBJ_INT_NUM, dictnr =>
      Some (EXEC (h_dict_other t) (fun t1 => Continue (h_stream_length text t1)))
  | OBJ_NAME, dictnr => Some (EXEC (h_dict_name hdr text t) Continue)
  | OBJ_ARRAY_OPEN, dictnr =>
      Some (EXEC (h_dict_other (set_nesting_level (nesting_level t + 1) t))
              Continue)
  | OBJ_ARRAY_CLOSE, dictnr =>
      Some (EXEC (h_dict_other (set_nesting_level (nesting_level t - 1) t))
              Continue)
  | OBJ_LIT_STR_OPEN, dictnr =>
      Some (EXEC (h_dict_other t) (fun t1 =>
        Continue (PUSH (if h_lit_str hdr t1 then jslstr else litstr) t1)))
  | OBJ_HEX_STR_OPEN, dictnr =>
      Some (EXEC (h_dict_other t) (fun t1 =>
        Continue (PUSH (if h_hex_str hdr t1 then jshstr else hexstr) t1)))
  | OBJ_DICT_SKIP, dictnr => Some (Continue t)
  | OBJ_LIT_STR_OPEN, indobj =>
      Some (match h_lit_open hdr t with
            | (true, t1) => Continue (PUSH litstr t1)
            | (false, t1) => Continue t1
            end)
  | OBJ_LIT_STR_OPEN, litstr => Some (Continue (snd (h_lit_open hdr t)))
  | OBJ_LIT_STR_CLOSE, litstr =>
      Some (match h_lit_close hdr t with
            | (true, t1) => pop_then t1 Continue
            | (false, t1) => Continue t1
            end)
  | LIT_STR_ESC, litstr | LIT_STR_ESC_OCT, litstr | LIT_STR_ESC_EOL, litstr
  | LIT_STR_EOL, litstr | LIT_STR_BODY, litstr => Some (Continue t)
  | OBJ_HEX_STR_OPEN, indobj => Some (Continue (PUSH hexstr t))
  | OBJ_HEX_STR_CLOSE, hexstr => Some (pop_then t Continue)
  | HEX_STR_BODY, hexstr | HEX_STR_SKIP, hexstr => Some (Continue t)
  | OBJ_LIT_STR_OPEN, jslstr =>
      Some (match h_lit_open hdr t with
            | (false, t1) => Continue (echo text t1)
            | (true, t1) => Continue (PUSH u16 t1)
            end)
  | OBJ_LIT_STR_CLOSE, jslstr =>
      Some (match h_lit_close hdr t with
            | (true, t1) => pop_then t1 Continue
            | (false, t1) => Continue (echo text t1)
            end)
  | LIT_STR_ESC, jslstr => Some (h_lit_unescape text t)
  | LIT_STR_ESC_OCT, jslstr => Some (h_lit_oct2chr text t)
  | LIT_STR_ESC_EOL_WS, jslstr => Some (Continue t)
  | LIT_STR_EOL, jslstr | LIT_STR_BODY, jslstr => Some (Continue (echo text t))
  | U16_BOM, u16 => Some (h_u16_start t)
  | U16_ANY, u16 => Some (h_u16_break t)
  | OBJ_LIT_STR_CLOSE, jsstru16 =>
      Some (match h_lit_close hdr t with
            | (true, t1) => pop_then t1 Continue
            | (false, t1) => Continue t1
            end)
  | LIT_STR_ESC_EOL, jsstru16 => Some (Continue t)
  | LIT_STR_U16_UNESC, jsstru16 => Some (h_lit_u16_unescape hdr text t Continue)
  | LIT_STR_U16_BODY, jsstru16 => Some (h_lit_u16 hdr text t Continue)
  | U16_BOM_HEX, u16hex => Some (h_u16_hex_start t)
  | U16HEX_ANY, u16hex => Some (h_u16_hex_break t)
  | OBJ_HEX_STR_OPEN, jshstr => Some (Continue (PUSH u16hex t))
  | OBJ_HEX_STR_CLOSE, jshstr | OBJ_HEX_STR_CLOSE, jshstru16 =>
      Some (pop_then t Continue)
  | HEX_STR_BODY, jshstr => Some (EXEC (h_hex_hex2chr text t) Continue)
  | HEX_STR_BODY, jshstru16 => Some (h_hex_hex2chr_u16 hdr text t Continue)
  | HEX_STR_SKIP, jshstr | HEX_STR_SKIP, jshstru16 => Some (Continue t)
  | _, _ => None
  end.

(** [yylex] (and so [process]) over the firings of the scanner, in order.
    The end of the list is the end of the input: the rule [<*><<EOF>>]
    fires there, whatever the start condition.  A firing the rules section
    has no rule for cannot come from the generated matcher; [None]. *)
Fixpoint yylex (hdr : Header) (ms : list Match) (t : Tokenizer)
  : option Outcome :=
  match ms with
  | [] => rule_action hdr EOF [] t
  | (p, text) :: ms' =>
      match rule_action hdr p text t with
      | Some (Continue t') => yylex hdr ms' t'
      | r => r
      end
  end.

Definition process := yylex.

(** The tokenizer as constructed: INITIAL, empty stack, the member
    initialisers [rem_length = -1], [is_js = false], and the dictionary as
    [clear] leaves it. *)
Definition tokenizer_init (hdr : Header) : Tokenizer :=
  mkTok INITIAL [] 0 0 (dict_clear hdr (mkDict true 0)) [] (mkStream (-1) false)
    ∅ u16_init [].

(** Modelled from the spec: the handlers of pdf_tokenizer.h that have no body
    in the lexer file.  "Literal strings honour balanced parentheses
    (push/pop on unescaped ( / ))": [h_lit_open] counts a parenthesis in and
    tells whether it opened the string, [h_lit_close] counts one out and
    tells whether it closed it.  "JsLstr / JsHstr -- JS-marked literal/hex
    strings": a string is JS-marked when the current key is [/JS].  The spec
    has no word on [h_ind_obj_close]; it is given the type of the one member
    an indirect object owns, [obj_stream]. *)
Definition spec_lit_open (t : Tokenizer) : bool * Tokenizer :=
  let l := parenthesis_level t + 1 in (l =? 1, set_parenthesis_level l t).

Definition spec_lit_close (t : Tokenizer) : bool * Tokenizer :=
  let l := parenthesis_level t - 1 in (l =? 0, set_parenthesis_level l t).

Definition spec_is_js_key (t : Tokenizer) : bool :=
  bool_decide (obj_entry_key t = key_JS).

(** Two candidates for [ObjectDictionary::clear], whose body is in the
    absent header: it resets both members, or it resets the key/value
    parity and leaves [array_level] alone. *)
Definition clear_reset (d : ObjectDictionary) : ObjectDictionary := mkDict true 0.

Definition clear_keep (d : ObjectDictionary) : ObjectDictionary :=
  mkDict true (array_level d).

Definition header_with (w : Z) (clear : ObjectDictionary -> ObjectDictionary)
  (close : Stream -> Stream) : Header :=
  mkHeader 16 w clear spec_is_js_key spec_is_js_key spec_lit_open spec_lit_close
    (fun t => set_stream (close (obj_stream t)) t).

(** The firings alone, without the end of input: where the scanner stands
    after [ms] if no action has left [yylex]. *)
Fixpoint scan_matches (hdr : Header) (ms : list Match) (t : Tokenizer)
  : option Outcome :=
  match ms with
  | [] => Some (Continue t)
  | (p, text) :: ms' =>
      match rule_action hdr p text t with
      | Some (Continue t') => scan_matches hdr ms' t'
      | r => r
      end
  end.

(** ** Inputs used below, as the scanner splits them *)

(** [1 0 obj << /K [ << >> ] >>]: a dictionary inside an array inside a
    dictionary, every bracket closed. *)
Definition nested_dictionary : list Match :=
  [ (INDIRECT_OBJ_OPEN, bytes "1 0 obj"); (WHITESPACE, bytes " ");
    (OBJ_DICT_OPEN, bytes "<<"); (WHITESPACE, bytes " ");
    (OBJ_NAME, bytes "/K"); (WHITESPACE, bytes " ");
    (OBJ_ARRAY_OPEN, bytes "["); (WHITESPACE, bytes " ");
    (OBJ_DICT_OPEN, bytes "<<"); (WHITESPACE, bytes " ");
    (OBJ_DICT_CLOSE, bytes ">>"); (WHITESPACE, bytes " ");
    (OBJ_ARRAY_CLOSE, bytes "]"); (WHITESPACE, bytes " ");
    (OBJ_DICT_CLOSE, bytes ">>") ].

(** [1 0 obj <</JS 2 0 R>>]: the reference that marks object 2 as
    JavaScript. *)
Definition js_reference : list Match :=
  [ (INDIRECT_OBJ_OPEN, bytes "1 0 obj"); (WHITESPACE, [10]);
    (OBJ_DICT_OPEN, bytes "<<"); (OBJ_NAME, bytes "/JS");
    (WHITESPACE, bytes " "); (OBJ_REFERENCE, bytes "2 0 R");
    (OBJ_DICT_CLOSE, bytes ">>") ].

(** [2 0 obj <</Length n>> stream\n BODY \nendstream endobj] up to and
    including [endstream], for a body that opens with the UTF-16BE byte
    order mark and holds the one character [a] (00 61) ... *)
Definition js_stream_utf16 : list Match :=
  [ (INDIRECT_OBJ_OPEN, bytes "2 0 obj"); (WHITESPACE, [10]);
    (OBJ_DICT_OPEN, bytes "<<"); (OBJ_NAME, bytes "/Length");
    (WHITESPACE, bytes " "); (OBJ_INT_NUM, bytes "4");
    (OBJ_DICT_CLOSE, bytes ">>"); (WHITESPACE, [10]);
    (OBJ_STREAM_OPEN, bytes "stream" ++ [10]);
    (U16_BOM, [0xFE; 0xFF]);
    (OBJ_STREAM_SKIP, [0x00; 0x61]);
    (OBJ_STREAM_CLOSE, 10 :: bytes "endstream") ].

(** ... and for the same character as plain 8-bit text. *)
Definition js_stream_8bit : list Match :=
  [ (INDIRECT_OBJ_OPEN, bytes "2 0 obj"); (WHITESPACE, [10]);
    (OBJ_DICT_OPEN, bytes "<<"); (OBJ_NAME, bytes "/Length");
    (WHITESPACE, bytes " "); (OBJ_INT_NUM, bytes "1");
    (OBJ_DICT_CLOSE, bytes ">>"); (WHITESPACE, [10]);
    (OBJ_STREAM_OPEN, bytes "stream" ++ [10]);
    (U16_ANY, [0x61]);
    (OBJ_STREAM_SKIP, [0x61]);
    (OBJ_STREAM_CLOSE, 10 :: bytes "endstream") ].


(** The header with 32-bit accumulators, [clear] resetting both members of
    the dictionary and [h_ind_obj_close] leaving the stream record alone. *)
Definition header32 : Header := header_with 32 clear_reset (fun s => s).

Definition header32_keep : Header := header_with 32 clear_keep (fun s => s).

(** ** Facts: machine arithmetic *)



Lemma lor_below (n a b : Z) :
  0 <= n -> 0 <= a < 2 ^ n -> 0 <= b < 2 ^ n -> 0 <= Z.lor a b < 2 ^ n.
Proof.
  intros Hn Ha Hb. split; [apply Z.lor_nonneg; lia |].
  destruct (Z.eq_dec (Z.lor a b) 0) as [-> | Hz]; [lia |].
  assert (0 < Z.lor a b) by (pose proof (proj2 (Z.lor_nonneg a b)); lia).
  assert (0 < n) as Hpos.
  { destruct (Z.eq_dec n 0) as [-> | ?]; [| lia].
    change (2 ^ 0) with 1 in *.
    assert (a = 0) as Ea by lia. assert (b = 0) as Eb by lia.
    rewrite Ea, Eb in Hz. destruct (Hz eq_refl). }
  apply Z.log2_lt_pow2; [lia |].
  rewrite Z.log2_lor by lia.
  assert (Z.log2 a < n).
  { destruct (Z.eq_dec a 0) as [-> | ?]; [simpl; lia | apply Z.log2_lt_pow2; lia]. }
  assert (Z.log2 b < n).
  { destruct (Z.eq_dec b 0) as [-> | ?]; [simpl; lia | apply Z.log2_lt_pow2; lia]. }
  lia.
Qed.

(** ** Facts: [u16_eval], byte by byte *)









(** ** Facts: [u16_eval] over whole code units *)





Section Units.

Variables (w : Z) (st : U16State) (out : list Z) (b1 b2 b3 b4 : Z).
Hypothesis Hstart : cur_byte st = 0.
Hypotheses (Hb1 : 0 <= b1 < 256) (Hb2 : 0 <= b2 < 256).
Hypotheses (Hb3 : 0 <= b3 < 256) (Hb4 : 0 <= b4 < 256).






End Units.

(** With accumulators of 16 to 20 bits every stored value is cut to the
    width, and no code handed to [u16_to_u8] exceeds 0x10FFFF. *)
Lemma u16_code_bounded_when_narrow (w : Z) (st : U16State) (b : Z) (r : U16Step) (c : Z) :
  16 <= w <= 20 -> 0 <= high st < 2 ^ w ->
  u16_eval_step w st b = Done r -> step_code r = Some c -> 0 <= c <= 0x10FFFF.
Proof.
  intros Hw Hh Hstep Hcode.
  assert (2 ^ w <= 2 ^ 20) as Hp by (apply pow2_mono; lia).
  assert (0 < 2 ^ w) as Hp0 by (apply Z.pow_pos_nonneg; lia).
  change (2 ^ 20) with 1048576 in Hp.
  unfold u16_eval_step in Hstep.
  destruct (cur_byte st =? 0); [inversion Hstep; subst r; discriminate Hcode |].
  destruct (cur_byte st =? 1).
  { destruct (Z.ltb_spec (trunc w (Z.lor (high st ≪ 8) b)) 55296) as [Hlt | Hge];
      inversion Hstep; subst r; cbn in Hcode; [| discriminate Hcode].
    inversion Hcode; subst c.
    pose proof (Z.mod_pos_bound (Z.lor (high st ≪ 8) b) (2 ^ w) Hp0) as Hm.
    fold (trunc w (Z.lor (high st ≪ 8) b)) in Hm.
    unfold wrap32. rewrite trunc_small; [lia |].
    change (2 ^ 32) with 4294967296. lia. }
  destruct (cur_byte st =? 2); [inversion Hstep; subst r; discriminate Hcode |].
  destruct (cur_byte st =? 3); [| discriminate Hstep].
  destruct (trunc w (Z.lor (low st ≪ 8) b) <? 56320);
    inversion Hstep; subst r; cbn in Hcode; [discriminate Hcode |].
  inversion Hcode; subst c.
  set (l := trunc w (trunc w (Z.lor (low st ≪ 8) b) - 56320)).
  assert (0 <= l < 2 ^ w) as Hl by (apply Z.mod_pos_bound; exact Hp0).
  pose proof (lor_below w (high st) l ltac:(lia) Hh Hl).
  unfold wrap32. rewrite trunc_small; [lia |].
  change (2 ^ 32) with 4294967296. lia.
Qed.

(** With 16-bit accumulators the product [(unit - 0xD800) * 0x400] loses its
    upper bits: D840 DC00 is U+20000 and comes out as U+10000. *)
Example u16_narrow_loses_plane :
  u16_feed 16 u16_init [] [0xD8; 0x40; 0xDC; 0x00]
    = Done (EOS, mkU16 0 0 0, [0xF0; 0x90; 0x80; 0x80])
  /\ u16_feed 32 u16_init [] [0xD8; 0x40; 0xDC; 0x00]
    = Done (EOS, mkU16 0x10000 0 0, [0xF0; 0xA0; 0x80; 0x80]).
Proof. split; vm_compute; reflexivity. Qed.







(** ** Facts: dictionaries and arrays *)

(** When [clear] resets [array_level], [h_dict_close] compares the array
    depth with 0, not with the depth recorded by [h_dict_open]. *)
Lemma h_dict_close_after_reset (hdr : Header) (t : Tokenizer) :
  dict_clear hdr = clear_reset ->
  fst (h_dict_close hdr t) = INCOMPLETE_ARRAY_IN_DICTIONARY <-> nesting_level t <> 0.
Proof.
  intros Hclear. unfold h_dict_close. rewrite Hclear.
  cbn [clear_reset set_dictionary obj_dictionary array_level nesting_level].
  destruct (Z.eqb_spec 0 (nesting_level t)) as [E | E]; cbn [fst]; split;
    intros H; try discriminate; try reflexivity; lia.
Qed.

(** When [clear] leaves [array_level] alone, [h_dict_close] compares the
    array depth with the depth recorded by the latest [h_dict_open]. *)
Lemma h_dict_close_after_keep (hdr : Header) (t : Tokenizer) :
  dict_clear hdr = clear_keep ->
  fst (h_dict_close hdr t) = INCOMPLETE_ARRAY_IN_DICTIONARY
    <-> array_level (obj_dictionary t) <> nesting_level t.
Proof.
  intros Hclear. unfold h_dict_close. rewrite Hclear.
  cbn [clear_keep set_dictionary obj_dictionary array_level nesting_level].
  destruct (Z.eqb_spec (array_level (obj_dictionary t)) (nesting_level t)) as [E | E];
    cbn [fst]; split; intros H; try discriminate; try reflexivity; lia.
Qed.

(** [h_dict_open] records the current array depth. *)
Lemma h_dict_open_records_level (hdr : Header) (t : Tokenizer) :
  array_level (obj_dictionary (snd (h_dict_open hdr t))) = nesting_level t
  /\ fst (h_dict_open hdr t) = EOS.
Proof. split; reflexivity. Qed.

(** C8 (the code departs from it). [<< /K [ << >> ] >>] closes every bracket
    it opens, and [process] returns [INCOMPLETE_ARRAY_IN_DICTIONARY]: at the
    inner [>>] (array depth 1, as at the inner [<<]) when [clear] resets the
    recorded depth, at the outer [>>] (array depth 0, as at the outer [<<])
    when [clear] keeps it, the one record then holding the inner
    dictionary's depth. *)
Theorem balanced_nested_dictionary_rejected :
  (exists t,
     process header32 nested_dictionary (tokenizer_init header32)
       = Some (Return INCOMPLETE_ARRAY_IN_DICTIONARY t)
     /\ yy_start t = dictnr /\ nesting_level t = 1)
  /\ (exists t,
     process header32_keep nested_dictionary (tokenizer_init header32_keep)
       = Some (Return INCOMPLETE_ARRAY_IN_DICTIONARY t)
     /\ yy_start t = indobj /\ nesting_level t = 0
     /\ array_level (obj_dictionary t) = 1).
Proof.
  split; eexists; (split; [vm_compute; reflexivity | repeat split; reflexivity]).
Qed.

(** ** Facts: closing a stream *)

(** In [jsstream] the close rule writes the newline once the length is used
    up ... *)
Lemma h_stream_close_jsstream (text : list Z) (t : Tokenizer) :
  yy_start t = jsstream -> rem_length (obj_stream t) - len text <= 0 ->
  fst (h_stream_close text t) = true
  /\ yyout (snd (h_stream_close text t)) = yyout t ++ [10].
Proof.
  intros Hsc Hrem. unfold h_stream_close.
  cbn [sub_rem_length set_stream obj_stream rem_length yy_start].
  destruct (Z.leb_spec (rem_length (obj_stream t) - len text) 0); [| lia].
  rewrite Hsc. split; reflexivity.
Qed.

(** ... and in [jsstreamu16] it writes nothing at all. *)
Lemma h_stream_close_jsstreamu16 (text : list Z) (t : Tokenizer) :
  yy_start t = jsstreamu16 ->
  yyout (snd (h_stream_close text t)) = yyout t.
Proof.
  intros Hsc. unfold h_stream_close.
  cbn [sub_rem_length set_stream obj_stream rem_length yy_start].
  rewrite Hsc.
  destruct (rem_length (obj_stream t) - len text <=? 0); reflexivity.
Qed.

(** C9 (the code departs from it). Object 2 is marked as JavaScript by
    [/JS 2 0 R].  With the 8-bit body [a] the output is [a] and a newline;
    with the UTF-16BE body FE FF 00 61 the output is [a] and no newline. *)
Theorem utf16_js_stream_gets_no_newline :
  (exists t,
     scan_matches header32 js_reference (tokenizer_init header32)
       = Some (Continue t)
     /\ js_stream_refs t = {[ 2 ]})
  /\ (exists t,
     process header32 js_stream_8bit (set_refs {[ 2 ]} (tokenizer_init header32))
       = Some (Return EOS t)
     /\ yyout t = [0x61; 10])
  /\ (exists t,
     process header32 js_stream_utf16 (set_refs {[ 2 ]} (tokenizer_init header32))
       = Some (Return EOS t)
     /\ yyout t = [0x61]).
Proof.
  repeat split; eexists; (split; [vm_compute; reflexivity | vm_compute; reflexivity]).
Qed.

(** ** Facts: the end of the input *)


(** The rule [<*><<EOF>>] is there for every start condition. *)
Lemma eof_rule_everywhere (hdr : Header) (t : Tokenizer) :
  rule_action hdr EOF [] t = Some (Return EOS t).
Proof. reflexivity. Qed.



End PDF.

(** * Part II: the HTTP/2 stream splitter (http2_stream_splitter_impl.cc) *)

Module H2.

(** [StreamSplitter::Status], the three values the splitter returns. *)
Inductive Status : Type := SEARCH | FLUSH | ABORT.

Definition is_search (st : Status) : bool :=
  match st with SEARCH => true | _ => false end.

Inductive ValidationResult : Type := V_GOOD | V_BAD | V_TBD.

Inductive Event : Type :=
  | EVENT_FRAME_SEQUENCE
  | EVENT_MISSING_CONTINUATION
  | EVENT_UNEXPECTED_CONTINUATION
  | EVENT_PREFACE_MATCH_FAILURE.

Inductive Infraction : Type :=
  | INF_FRAME_SEQUENCE
  | INF_MISSING_CONTINUATION
  | INF_UNEXPECTED_CONTINUATION.

(** What stops a call short of its return: a failed [assert], an access
    outside a buffer, or a loop the model gave too little fuel. *)
Inductive Fault : Type := AssertionFailed | OutOfBounds | NoFuel.

Inductive Run (A : Type) : Type :=
  | Ok (a : A)
  | Stop (f : Fault).
Arguments Ok {A} a.
Arguments Stop {A} f.

(** Modelled from the spec: the wire constants of http2_enum.h, which is not
    in the source tree ("HTTP/2 frame header: 9 octets", "DATA (0), HEADERS
    (1), CONTINUATION (9)", "END_HEADERS (0x04), PADDED (0x08)"). *)
Definition FRAME_HEADER_LENGTH : Z := 9.
Definition FT_DATA : Z := 0.
Definition FT_HEADERS : Z := 1.
Definition FT_CONTINUATION : Z := 9.
Definition END_HEADERS : Z := 0x04.
Definition PADDED : Z := 0x08.

Definition byte_at (l : list Z) (i : nat) : Z := default 0 (l !! i).

(** Modelled from the spec: the header accessors of http2_utils, which is not
    in the source tree ("length (24b BE), type (8b), flags (8b), reserved
    (1b) + stream id (31b BE)"). *)
Definition get_frame_length (h : list Z) : Z :=
  Z.lor (Z.lor (byte_at h 0 ≪ 16) (byte_at h 1 ≪ 8)) (byte_at h 2).

Definition get_frame_type (h : list Z) : Z := byte_at h 3.

Definition get_frame_flags (h : list Z) : Z := byte_at h 4.

Definition get_stream_id (h : list Z) : Z :=
  Z.lor (Z.lor (Z.lor (Z.land (byte_at h 5) 0x7f ≪ 24) (byte_at h 6 ≪ 16))
           (byte_at h 7 ≪ 8)) (byte_at h 8).

Definition has_flag (flags flag : Z) : bool := negb (Z.land flags flag =? 0).

(** [memcpy(dst + off, src + from, n)] on buffers of known size. *)
Definition memcpy (dst : list Z) (off : Z) (src : list Z) (from n : Z)
  : Run (list Z) :=
  if (0 <=? off) && (0 <=? from) && (0 <=? n)
     && (off + n <=? len dst) && (from + n <=? len src)
  then Ok (list_inserts (Z.to_nat off)
             (take (Z.to_nat n) (drop (Z.to_nat from) src)) dst)
  else Stop OutOfBounds.

(** ** validate_preface *)

Definition connection_prefix : list Z :=
  bytes "PRI * HTTP/2.0" ++ [13; 10; 13; 10] ++ bytes "SM" ++ [13; 10; 13; 10].

(** [memcmp(a, b, n) == 0]. *)
Definition memcmp_eq (a b : list Z) (n : Z) : bool :=
  bool_decide (take (Z.to_nat n) a = take (Z.to_nat n) b).

Definition validate_preface (data : list Z) (length octets_seen : Z)
  : Run ValidationResult :=
  let preface_length := 24 in
  if negb (octets_seen <? preface_length) then Stop AssertionFailed
  else
    let count :=
      if wrap32 (octets_seen + length) <? preface_length then length
      else wrap32 (preface_length - octets_seen) in
    if negb (memcmp_eq data (drop (Z.to_nat octets_seen) connection_prefix) count)
    then Ok V_BAD
    else if wrap32 (octets_seen + length) <? preface_length then Ok V_TBD
    else Ok V_GOOD.

Section Splitter.

(** The streams, their HTTP flow data and their data cutters
    ([Http2Stream], [HttpFlowData], [Http2DataCutter]) are other files'
    objects; [E] is their state. *)
Variable E : Type.

(** [MAX_OCTETS] of http_common.h. *)
Variable MAX_OCTETS : Z.

(** [Http2FlowData], the members of one direction ([source_id] fixed): the
    scan state, the event and infraction sets, and the reassembly buffers. *)
Record Http2FlowData : Type := mkFlow {
  preface : bool;
  payload_discard : bool;
  scan_octets_seen : Z;
  scan_frame_header : list Z;
  scan_remaining_frame_octets : Z;
  continuation_expected : bool;
  mid_data_frame : bool;
  data_processing : bool;
  current_stream : Z;
  num_frame_headers : Z;
  total_bytes_in_split : Z;
  frame_type : Z;
  octets_before_first_header : Z;
  events : list Event;
  infractions : list Infraction;
  frame_header : list Z;
  frame_header_size : Z;
  frame_header_offset : Z;
  frame_data : list Z;
  frame_data_size : Z;
  frame_data_offset : Z;
  remaining_frame_octets : Z;
  padding_octets_in_frame : Z;
  get_padding_len : bool;
  ext : E
}.

Definition set_preface (v : bool) (s : Http2FlowData) : Http2FlowData :=
  mkFlow v (payload_discard s) (scan_octets_seen s) (scan_frame_header s)
    (scan_remaining_frame_octets s) (continuation_expected s)
    (mid_data_frame s) (data_processing s) (current_stream s)
    (num_frame_headers s) (total_bytes_in_split s) (frame_type s)
    (octets_before_first_header s) (events s) (infractions s) (frame_header
    s) (frame_header_size s) (frame_header_offset s) (frame_data s)
    (frame_data_size s) (frame_data_offset s) (remaining_frame_octets s)
    (padding_octets_in_frame s) (get_padding_len s) (ext s).

Definition set_payload_discard (v : bool) (s : Http2FlowData) : Http2FlowData :=
  mkFlow (preface s) v (scan_octets_seen s) (scan_frame_header s)
    (scan_remaining_frame_octets s) (continuation_expected s)
    (mid_data_frame s) (data_processing s) (current_stream s)
    (num_frame_headers s) (total_bytes_in_split s) (frame_type s)
    (octets_before_first_header s) (events s) (infractions s) (frame_header
    s) (frame_header_size s) (frame_header_offset s) (frame_data s)
    (frame_data_size s) (frame_data_offset s) (remaining_frame_octets s)
    (padding_octets_in_frame s) (get_padding_len s) (ext s).

Definition set_scan_octets_seen (v : Z) (s : Http2FlowData) : Http2FlowData :=
  mkFlow (preface s) (payload_discard s) v (scan_frame_header s)
    (scan_remaining_frame_octets s) (continuation_expected s)
    (mid_data_frame s) (data_processing s) (current_stream s)
    (num_frame_headers s) (total_bytes_in_split s) (frame_type s)
    (octets_before_first_header s) (events s) (infractions s) (frame_header
    s) (frame_header_size s) (frame_header_offset s) (frame_data s)
    (frame_data_size s) (frame_data_offset s) (remaining_frame_octets s)
    (padding_octets_in_frame s) (get_padding_len s) (ext s).

Definition set_scan_frame_header (v : list Z) (s : Http2FlowData) : Http2FlowData :=
  mkFlow (preface s) (payload_discard s) (scan_octets_seen s) v
    (scan_remaining_frame_octets s) (continuation_expected s)
    (mid_data_frame s) (data_processing s) (current_stream s)
    (num_frame_headers s) (total_bytes_in_split s) (frame_type s)
    (octets_before_first_header s) (events s) (infractions s) (frame_header
    s) (frame_header_size s) (frame_header_offset s) (frame_data s)
    (frame_data_size s) (frame_data_offset s) (remaining_frame_octets s)
    (padding_octets_in_frame s) (get_padding_len s) (ext s).

Definition set_scan_remaining_frame_octets (v : Z) (s : Http2FlowData) : Http2FlowData :=
  mkFlow (preface s) (payload_discard s) (scan_octets_seen s)
    (scan_frame_header s) v (continuation_expected s) (mid_data_frame s)
    (data_processing s) (current_stream s) (num_frame_headers s)
    (total_bytes_in_split s) (frame_type s) (octets_before_first_header s)
    (events s) (infractions s) (frame_header s) (frame_header_size s)
    (frame_header_offset s) (frame_data s) (frame_data_size s)
    (frame_data_offset s) (remaining_frame_octets s)
    (padding_octets_in_frame s) (get_padding_len s) (ext s).

Definition set_continuation_expected (v : bool) (s : Http2FlowData) : Http2FlowData :=
  mkFlow (preface s) (payload_discard s) (scan_octets_seen s)
    (scan_frame_header s) (scan_remaining_frame_octets s) v (mid_data_frame
    s) (data_processing s) (current_stream s) (num_frame_headers s)
    (total_bytes_in_split s) (frame_type s) (octets_before_first_header s)
    (events s) (infractions s) (frame_header s) (frame_header_size s)
    (frame_header_offset s) (frame_data s) (frame_data_size s)
    (frame_data_offset s) (remaining_frame_octets s)
    (padding_octets_in_frame s) (get_padding_len s) (ext s).

Definition set_mid_data_frame (v : bool) (s : Http2FlowData) : Http2FlowData :=
  mkFlow (preface s) (payload_discard s) (scan_octets_seen s)
    (scan_frame_header s) (scan_remaining_frame_octets s)
    (continuation_expected s) v (data_processing s) (current_stream s)
    (num_frame_headers s) (total_bytes_in_split s) (frame_type s)
    (octets_before_first_header s) (events s) (infractions s) (frame_header
    s) (frame_header_size s) (frame_header_offset s) (frame_data s)
    (frame_data_size s) (frame_data_offset s) (remaining_frame_octets s)
    (padding_octets_in_frame s) (get_padding_len s) (ext s).

Definition set_data_processing (v : bool) (s : Http2FlowData) : Http2FlowData :=
  mkFlow (preface s) (payload_discard s) (scan_octets_seen s)
    (scan_frame_header s) (scan_remaining_frame_octets s)
    (continuation_expected s) (mid_data_frame s) v (current_stream s)
    (num_frame_headers s) (total_bytes_in_split s) (frame_type s)
    (octets_before_first_header s) (events s) (infractions s) (frame_header
    s) (frame_header_size s) (frame_header_offset s) (frame_data s)
    (frame_data_size s) (frame_data_offset s) (remaining_frame_octets s)
    (padding_octets_in_frame s) (get_padding_len s) (ext s).

Definition set_current_stream (v : Z) (s : Http2FlowData) : Http2FlowData :=
  mkFlow (preface s) (payload_discard s) (scan_octets_seen s)
    (scan_frame_header s) (scan_remaining_frame_octets s)
    (continuation_expected s) (mid_data_frame s) (data_processing s) v
    (num_frame_headers s) (total_bytes_in_split s) (frame_type s)
    (octets_before_first_header s) (events s) (infractions s) (frame_header
    s) (frame_header_size s) (frame_header_offset s) (frame_data s)
    (frame_data_size s) (frame_data_offset s) (remaining_frame_octets s)
    (padding_octets_in_frame s) (get_padding_len s) (ext s).

Definition set_num_frame_headers (v : Z) (s : Http2FlowData) : Http2FlowData :=
  mkFlow (preface s) (payload_discard s) (scan_octets_seen s)
    (scan_frame_header s) (scan_remaining_frame_octets s)
    (continuation_expected s) (mid_data_frame s) (data_processing s)
    (current_stream s) v (total_bytes_in_split s) (frame_type s)
    (octets_before_first_header s) (events s) (infractions s) (frame_header
    s) (frame_header_size s) (frame_header_offset s) (frame_data s)
    (frame_data_size s) (frame_data_offset s) (remaining_frame_octets s)
    (padding_octets_in_frame s) (get_padding_len s) (ext s).

Definition set_total_bytes_in_split (v : Z) (s : Http2FlowData) : Http2FlowData :=
  mkFlow (preface s) (payload_discard s) (scan_octets_seen s)
    (scan_frame_header s) (scan_remaining_frame_octets s)
    (continuation_expected s) (mid_data_frame s) (data_processing s)
    (current_stream s) (num_frame_headers s) v (frame_type s)
    (octets_before_first_header s) (events s) (infractions s) (frame_header
    s) (frame_header_size s) (frame_header_offset s) (frame_data s)
    (frame_data_size s) (frame_data_offset s) (remaining_frame_octets s)
    (padding_octets_in_frame s) (get_padding_len s) (ext s).

Definition set_frame_type (v : Z) (s : Http2FlowData) : Http2FlowData :=
  mkFlow (preface s) (payload_discard s) (scan_octets_seen s)
    (scan_frame_header s) (scan_remaining_frame_octets s)
    (continuation_expected s) (mid_data_frame s) (data_processing s)
    (current_stream s) (num_frame_headers s) (total_bytes_in_split s) v
    (octets_before_first_header s) (events s) (infractions s) (frame_header
    s) (frame_header_size s) (frame_header_offset s) (frame_data s)
    (frame_data_size s) (frame_data_offset s) (remaining_frame_octets s)
    (padding_octets_in_frame s) (get_padding_len s) (ext s).

Definition set_octets_before_first_header (v : Z) (s : Http2FlowData) : Http2FlowData :=
  mkFlow (preface s) (payload_discard s) (scan_octets_seen s)
    (scan_frame_header s) (scan_remaining_frame_octets s)
    (continuation_expected s) (mid_data_frame s) (data_processing s)
    (current_stream s) (num_frame_headers s) (total_bytes_in_split s)
    (frame_type s) v (events s) (infractions s) (frame_header s)
    (frame_header_size s) (frame_header_offset s) (frame_data s)
    (frame_data_size s) (frame_data_offset s) (remaining_frame_octets s)
    (padding_octets_in_frame s) (get_padding_len s) (ext s).

Definition set_events (v : list Event) (s : Http2FlowData) : Http2FlowData :=
  mkFlow (preface s) (payload_discard s) (scan_octets_seen s)
    (scan_frame_header s) (scan_remaining_frame_octets s)
    (continuation_expected s) (mid_data_frame s) (data_processing s)
    (current_stream s) (num_frame_headers s) (total_bytes_in_split s)
    (frame_type s) (octets_before_first_header s) v (infractions s)
    (frame_header s) (frame_header_size s) (frame_header_offset s)
    (frame_data s) (frame_data_size s) (frame_data_offset s)
    (remaining_frame_octets s) (padding_octets_in_frame s) (get_padding_len
    s) (ext s).

Definition set_infractions (v : list Infraction) (s : Http2FlowData) : Http2FlowData :=
  mkFlow (preface s) (payload_discard s) (scan_octets_seen s)
    (scan_frame_header s) (scan_remaining_frame_octets s)
    (continuation_expected s) (mid_data_frame s) (data_processing s)
    (current_stream s) (num_frame_headers s) (total_bytes_in_split s)
    (frame_type s) (octets_before_first_header s) (events s) v (frame_header
    s) (frame_header_size s) (frame_header_offset s) (frame_data s)
    (frame_data_size s) (frame_data_offset s) (remaining_frame_octets s)
    (padding_octets_in_frame s) (get_padding_len s) (ext s).

Definition set_frame_header (v : list Z) (s : Http2FlowData) : Http2FlowData :=
  mkFlow (preface s) (payload_discard s) (scan_octets_seen s)
    (scan_frame_header s) (scan_remaining_frame_octets s)
    (continuation_expected s) (mid_data_frame s) (data_processing s)
    (current_stream s) (num_frame_headers s) (total_bytes_in_split s)
    (frame_type s) (octets_before_first_header s) (events s) (infractions s)
    v (frame_header_size s) (frame_header_offset s) (frame_data s)
    (frame_data_size s) (frame_data_offset s) (remaining_frame_octets s)
    (padding_octets_in_frame s) (get_padding_len s) (ext s).

Definition set_frame_header_size (v : Z) (s : Http2FlowData) : Http2FlowData :=
  mkFlow (preface s) (payload_discard s) (scan_octets_seen s)
    (scan_frame_header s) (scan_remaining_frame_octets s)
    (continuation_expected s) (mid_data_frame s) (data_processing s)
    (current_stream s) (num_frame_headers s) (total_bytes_in_split s)
    (frame_type s) (octets_before_first_header s) (events s) (infractions s)
    (frame_header s) v (frame_header_offset s) (frame_data s)
    (frame_data_size s) (frame_data_offset s) (remaining_frame_octets s)
    (padding_octets_in_frame s) (get_padding_len s) (ext s).

Definition set_frame_header_offset (v : Z) (s : Http2FlowData) : Http2FlowData :=
  mkFlow (preface s) (payload_discard s) (scan_octets_seen s)
    (scan_frame_header s) (scan_remaining_frame_octets s)
    (continuation_expected s) (mid_data_frame s) (data_processing s)
    (current_stream s) (num_frame_headers s) (total_bytes_in_split s)
    (frame_type s) (octets_before_first_header s) (events s) (infractions s)
    (frame_header s) (frame_header_size s) v (frame_data s) (frame_data_size
    s) (frame_data_offset s) (remaining_frame_octets s)
    (padding_octets_in_frame s) (get_padding_len s) (ext s).

Definition set_frame_data (v : list Z) (s : Http2FlowData) : Http2FlowData :=
  mkFlow (preface s) (payload_discard s) (scan_octets_seen s)
    (scan_frame_header s) (scan_remaining_frame_octets s)
    (continuation_expected s) (mid_data_frame s) (data_processing s)
    (current_stream s) (num_frame_headers s) (total_bytes_in_split s)
    (frame_type s) (octets_before_first_header s) (events s) (infractions s)
    (frame_header s) (frame_header_size s) (frame_header_offset s) v
    (frame_data_size s) (frame_data_offset s) (remaining_frame_octets s)
    (padding_octets_in_frame s) (get_padding_len s) (ext s).

Definition set_frame_data_size (v : Z) (s : Http2FlowData) : Http2FlowData :=
  mkFlow (preface s) (payload_discard s) (scan_octets_seen s)
    (scan_frame_header s) (scan_remaining_frame_octets s)
    (continuation_expected s) (mid_data_frame s) (data_processing s)
    (current_stream s) (num_frame_headers s) (total_bytes_in_split s)
    (frame_type s) (octets_before_first_header s) (events s) (infractions s)
    (frame_header s) (frame_header_size s) (frame_header_offset s)
    (frame_data s) v (frame_data_offset s) (remaining_frame_octets s)
    (padding_octets_in_frame s) (get_padding_len s) (ext s).

Definition set_frame_data_offset (v : Z) (s : Http2FlowData) : Http2FlowData :=
  mkFlow (preface s) (payload_discard s) (scan_octets_seen s)
    (scan_frame_header s) (scan_remaining_frame_octets s)
    (continuation_expected s) (mid_data_frame s) (data_processing s)
    (current_stream s) (num_frame_headers s) (total_bytes_in_split s)
    (frame_type s) (octets_before_first_header s) (events s) (infractions s)
    (frame_header s) (frame_header_size s) (frame_header_offset s)
    (frame_data s) (frame_data_size s) v (remaining_frame_octets s)
    (padding_octets_in_frame s) (get_padding_len s) (ext s).

Definition set_remaining_frame_octets (v : Z) (s : Http2FlowData) : Http2FlowData :=
  mkFlow (preface s) (payload_discard s) (scan_octets_seen s)
    (scan_frame_header s) (scan_remaining_frame_octets s)
    (continuation_expected s) (mid_data_frame s) (data_processing s)
    (current_stream s) (num_frame_headers s) (total_bytes_in_split s)
    (frame_type s) (octets_before_first_header s) (events s) (infractions s)
    (frame_header s) (frame_header_size s) (frame_header_offset s)
    (frame_data s) (frame_data_size s) (frame_data_offset s) v
    (padding_octets_in_frame s) (get_padding_len s) (ext s).

Definition set_padding_octets_in_frame (v : Z) (s : Http2FlowData) : Http2FlowData :=
  mkFlow (preface s) (payload_discard s) (scan_octets_seen s)
    (scan_frame_header s) (scan_remaining_frame_octets s)
    (continuation_expected s) (mid_data_frame s) (data_processing s)
    (current_stream s) (num_frame_headers s) (total_bytes_in_split s)
    (frame_type s) (octets_before_first_header s) (events s) (infractions s)
    (frame_header s) (frame_header_size s) (frame_header_offset s)
    (frame_data s) (frame_data_size s) (frame_data_offset s)
    (remaining_frame_octets s) v (get_padding_len s) (ext s).

Definition set_get_padding_len (v : bool) (s : Http2FlowData) : Http2FlowData :=
  mkFlow (preface s) (payload_discard s) (scan_octets_seen s)
    (scan_frame_header s) (scan_remaining_frame_octets s)
    (continuation_expected s) (mid_data_frame s) (data_processing s)
    (current_stream s) (num_frame_headers s) (total_bytes_in_split s)
    (frame_type s) (octets_before_first_header s) (events s) (infractions s)
    (frame_header s) (frame_header_size s) (frame_header_offset s)
    (frame_data s) (frame_data_size s) (frame_data_offset s)
    (remaining_frame_octets s) (padding_octets_in_frame s) v (ext s).

Definition set_ext (v : E) (s : Http2FlowData) : Http2FlowData :=
  mkFlow (preface s) (payload_discard s) (scan_octets_seen s)
    (scan_frame_header s) (scan_remaining_frame_octets s)
    (continuation_expected s) (mid_data_frame s) (data_processing s)
    (current_stream s) (num_frame_headers s) (total_bytes_in_split s)
    (frame_type s) (octets_before_first_header s) (events s) (infractions s)
    (frame_header s) (frame_header_size s) (frame_header_offset s)
    (frame_data s) (frame_data_size s) (frame_data_offset s)
    (remaining_frame_octets s) (padding_octets_in_frame s) (get_padding_len
    s) v.

Definition add_event (e : Event) (s : Http2FlowData) : Http2FlowData :=
  set_events (e :: events s) s.

Definition add_infraction (i : Infraction) (s : Http2FlowData) : Http2FlowData :=
  set_infractions (i :: infractions s) s.

(** A flow as constructed: every counter 0, every flag clear but [preface],
    which is set for the direction that carries the connection preface. *)
Definition flow_init (client : bool) (e : E) : Http2FlowData :=
  mkFlow client false 0 (replicate 9 0) 0 false false false 0 0 0 0 0 [] []
    [] 0 0 [] 0 0 0 0 false e.

(** The collaborators as the splitter calls them.
    [stream_found]: [find_stream(current_stream)] is not null;
    [hi_flow_found]: [stream->get_hi_flow_data()] is not null;
    [body_expected]: [get_type_expected(source_id) == SEC_BODY_H2];
    [cutter_scan s data flush_offset data_offset frame]:
    [Http2DataCutter::scan], [frame] being [Some (frame_length, frame_flags)]
    for the call of [data_scan] and [None] for the call that continues a
    DATA frame; it returns the status and the new [*flush_offset],
    [data_offset] and flow;
    [cutter_reassemble]: [Http2DataCutter::reassemble], the buffer it
    returns ([None] for a null [data]) and the new flow. *)
Variable stream_found : Http2FlowData -> bool.
Variable hi_flow_found : Http2FlowData -> bool.
Variable body_expected : Http2FlowData -> bool.
Variable cutter_scan :
  Http2FlowData -> list Z -> Z -> Z -> option (Z * Z) ->
  Status * Z * Z * Http2FlowData.
Variable cutter_reassemble :
  Http2FlowData -> list Z -> option (list Z) * Http2FlowData.

(** ** data_scan *)

Definition data_scan (s : Http2FlowData) (data : list Z)
    (flush_offset frame_length frame_flags data_offset : Z)
  : Status * Z * Z * Http2FlowData :=
  if negb (stream_found s) || negb (hi_flow_found s)
     || ((0 <? frame_length) && negb (body_expected s))
  then (ABORT, flush_offset, data_offset,
        add_event EVENT_FRAME_SEQUENCE (add_infraction INF_FRAME_SEQUENCE s))
  else if (frame_length =? 0) || (MAX_OCTETS <? frame_length)
  then (ABORT, flush_offset, data_offset, s)
  else cutter_scan s data flush_offset data_offset (Some (frame_length, frame_flags)).

(** ** non_data_scan *)

(** "Compute frame section length once per frame": [inl] is the early
    [return ABORT]. *)
Definition frame_section_length (s : Http2FlowData) (frame_length type : Z)
  : Http2FlowData + Http2FlowData :=
  if scan_remaining_frame_octets s =? 0 then
    if continuation_expected s && negb (type =? FT_CONTINUATION) then
      inl (add_event EVENT_MISSING_CONTINUATION
             (add_infraction INF_MISSING_CONTINUATION s))
    else if MAX_OCTETS <? wrap32 (frame_length + FRAME_HEADER_LENGTH) then inl s
    else
      inr (set_total_bytes_in_split
             (wrap32 (total_bytes_in_split s
                      + wrap32 (FRAME_HEADER_LENGTH + frame_length)))
             (set_scan_remaining_frame_octets frame_length s))
  else inr s.

(** The [switch (type)] once the whole frame is there. *)
Definition full_frame_status (s : Http2FlowData) (type frame_flags : Z)
  : Status * Http2FlowData :=
  if type =? FT_HEADERS then
    if negb (has_flag frame_flags END_HEADERS)
    then (SEARCH, set_continuation_expected true s)
    else (FLUSH, s)
  else if type =? FT_CONTINUATION then
    if continuation_expected s then
      if negb (has_flag frame_flags END_HEADERS) then (SEARCH, s)
      else (FLUSH, set_continuation_expected false s)
    else
      (ABORT, add_event EVENT_UNEXPECTED_CONTINUATION
                (add_infraction INF_UNEXPECTED_CONTINUATION s))
  else (FLUSH, s).

Definition non_data_scan (s : Http2FlowData)
    (length flush_offset frame_length type frame_flags data_offset : Z)
  : Status * Z * Z * Http2FlowData :=
  if data_processing s then (ABORT, flush_offset, data_offset, s)
  else
    match frame_section_length s frame_length type with
    | inl s1 => (ABORT, flush_offset, data_offset, s1)
    | inr s1 =>
        if wrap32 (length - data_offset) <? scan_remaining_frame_octets s1 then
          (SEARCH, flush_offset, length,
           set_scan_remaining_frame_octets
             (wrap32 (scan_remaining_frame_octets s1
                      - wrap32 (length - data_offset))) s1)
        else
          let '(status, s2) := full_frame_status s1 type frame_flags in
          let data_offset' :=
            wrap32 (data_offset + scan_remaining_frame_octets s2) in
          (status, data_offset', data_offset',
           set_scan_remaining_frame_octets 0 (set_scan_octets_seen 0 s2))
    end.

(** ** implement_scan *)

(** One pass through the body of the [do ... while]: it returns from
    [implement_scan] ([Leave]) or reaches the loop test ([Test]). *)
Inductive Pass : Type :=
  | Leave (st : Status) (flush_offset : Z) (s : Http2FlowData)
  | Test (st : Status) (flush_offset data_offset : Z) (s : Http2FlowData).

Definition to_test (r : Status * Z * Z * Http2FlowData) : Pass :=
  let '(st, fo, d, s) := r in Test st fo d s.

Definition scan_pass (s : Http2FlowData) (data : list Z)
    (length flush_offset data_offset : Z) : Run Pass :=
  if mid_data_frame s then
    Ok (to_test (cutter_scan s data flush_offset data_offset None))
  else
    let s1 :=
      if scan_octets_seen s =? 0
      then set_num_frame_headers (wrap32 (num_frame_headers s + 1)) s
      else s in
    let remaining_header := wrap32 (FRAME_HEADER_LENGTH - scan_octets_seen s1) in
    let remaining_header_in_data :=
      if wrap32 (length - data_offset) <? remaining_header
      then wrap32 (length - data_offset) else remaining_header in
    match memcpy (scan_frame_header s1) (scan_octets_seen s1) data data_offset
            remaining_header_in_data with
    | Stop f => Stop f
    | Ok h =>
        let s2 :=
          set_scan_octets_seen
            (wrap32 (scan_octets_seen s1 + remaining_header_in_data))
            (set_scan_frame_header h s1) in
        let data_offset1 := wrap32 (data_offset + remaining_header_in_data) in
        if scan_octets_seen s2 <? FRAME_HEADER_LENGTH then
          Ok (Leave SEARCH flush_offset s2)
        else
          let frame_length := wrap32 (get_frame_length (scan_frame_header s2)) in
          let type := to_char (get_frame_type (scan_frame_header s2)) in
          let frame_flags := to_char (get_frame_flags (scan_frame_header s2)) in
          let s3 :=
            set_current_stream (wrap32 (get_stream_id (scan_frame_header s2)))
              (set_frame_type type s2) in
          if type =? FT_DATA then
            Ok (to_test (data_scan s3 data flush_offset frame_length
                           frame_flags data_offset1))
          else
            Ok (to_test (non_data_scan s3 length flush_offset frame_length
                           type frame_flags data_offset1))
    end.

Fixpoint scan_loop (fuel : nat) (s : Http2FlowData) (data : list Z)
    (length flush_offset data_offset : Z) : Run (Status * Z * Http2FlowData) :=
  match fuel with
  | O => Stop NoFuel
  | S fuel' =>
      match scan_pass s data length flush_offset data_offset with
      | Stop f => Stop f
      | Ok (Leave st fo s') => Ok (st, fo, s')
      | Ok (Test st fo d s') =>
          if is_search st && (d <? length)
          then scan_loop fuel' s' data length fo d
          else Ok (st, fo, s')
      end
  end.

(** [implement_scan]; [flush_offset] is what [*flush_offset] holds at the
    call, the second component of the result what it holds at the return. *)
Definition implement_scan (fuel : nat) (s : Http2FlowData) (data : list Z)
    (flush_offset : Z) : Run (Status * Z * Http2FlowData) :=
  let length := len data in
  if preface s then
    match validate_preface data length (scan_octets_seen s) with
    | Stop f => Stop f
    | Ok V_GOOD =>
        Ok (FLUSH, wrap32 (24 - scan_octets_seen s),
            set_scan_octets_seen 0
              (set_payload_discard true (set_preface false s)))
    | Ok V_BAD =>
        Ok (ABORT, flush_offset, add_event EVENT_PREFACE_MATCH_FAILURE s)
    | Ok V_TBD =>
        Ok (SEARCH, flush_offset,
            set_scan_octets_seen (wrap32 (scan_octets_seen s + length)) s)
    end
  else
    scan_loop fuel (set_octets_before_first_header 0 s) data length 0 0.

(** Fuel that is enough for any chunk (lemma [scan_loop_returns]). *)
Definition scan_fuel (data : list Z) : nat := 2 * length data + 2.

(** ** implement_reassemble *)

Definition min32 (a b : Z) : Z := if a <? b then a else b.

(** "Read the padding length if necessary". *)
Definition read_padding_len (s : Http2FlowData) (data : list Z) (data_offset : Z)
  : Run (Z * Http2FlowData) :=
  if get_padding_len s then
    match data !! Z.to_nat data_offset with
    | None => Stop OutOfBounds
    | Some pad =>
        Ok (wrap32 (data_offset + 1),
            set_frame_data_size (wrap32 (frame_data_size s - (pad + 1)))
              (set_remaining_frame_octets
                 (wrap32 (remaining_frame_octets s - 1))
                 (set_padding_octets_in_frame pad
                    (set_get_padding_len false s))))
    end
  else Ok (data_offset, s).

(** "Copy data into the frame buffer until we run out of data or reach the
    end of the current frame's data". *)
Definition copy_payload (s : Http2FlowData) (data : list Z) (length data_offset : Z)
  : Run (Z * Http2FlowData) :=
  let remaining_frame_payload :=
    wrap32 (remaining_frame_octets s - padding_octets_in_frame s) in
  let octets_to_copy :=
    if wrap32 (length - data_offset) <? remaining_frame_payload
    then wrap32 (length - data_offset) else remaining_frame_payload in
  match
    (if 0 <? octets_to_copy
     then memcpy (frame_data s) (frame_data_offset s) data data_offset octets_to_copy
     else Ok (frame_data s))
  with
  | Stop f => Stop f
  | Ok buf =>
      Ok (wrap32 (data_offset + octets_to_copy),
          set_remaining_frame_octets
            (wrap32 (remaining_frame_octets s - octets_to_copy))
            (set_frame_data_offset (wrap32 (frame_data_offset s + octets_to_copy))
               (set_frame_data buf s)))
  end.

(** "Skip over any padding". *)
Definition skip_padding (s : Http2FlowData) (length data_offset : Z)
  : Z * Http2FlowData :=
  let padding_bytes_to_skip :=
    if wrap32 (length - data_offset) <? padding_octets_in_frame s
    then wrap32 (length - data_offset) else padding_octets_in_frame s in
  (wrap32 (data_offset + padding_bytes_to_skip),
   set_remaining_frame_octets
     (wrap32 (remaining_frame_octets s - padding_bytes_to_skip)) s).

(** "Copy headers", and, when a header has just been completed, "parse and
    update frame variables".  The boolean tells whether the pass reaches the
    loop test ([false]: it left by [break]). *)
Definition copy_header (s : Http2FlowData) (data : list Z) (length data_offset : Z)
  : Run (bool * Z * Http2FlowData) :=
  let remaining_frame_header :=
    wrap32 (FRAME_HEADER_LENGTH - frame_header_offset s mod FRAME_HEADER_LENGTH) in
  let octets_to_copy :=
    if wrap32 (length - data_offset) <? remaining_frame_header
    then wrap32 (length - data_offset) else remaining_frame_header in
  match memcpy (frame_header s) (frame_header_offset s) data data_offset
          octets_to_copy with
  | Stop f => Stop f
  | Ok buf =>
      let s1 :=
        set_frame_header_offset (wrap32 (frame_header_offset s + octets_to_copy))
          (set_frame_header buf s) in
      let data_offset1 := wrap32 (data_offset + octets_to_copy) in
      if negb (frame_header_offset s1 mod FRAME_HEADER_LENGTH =? 0) then
        Ok (false, data_offset1, s1)
      else
        let s2 :=
          set_remaining_frame_octets
            (get_frame_length
               (drop (Z.to_nat (frame_header_offset s1 - FRAME_HEADER_LENGTH))
                  (frame_header s1))) s1 in
        let frame_flags := get_frame_flags (scan_frame_header s2) in
        Ok (true, data_offset1,
            if has_flag frame_flags PADDED then set_get_padding_len true s2
            else s2)
  end.

Definition reassemble_pass (s : Http2FlowData) (data : list Z)
    (length data_offset : Z) : Run (bool * Z * Http2FlowData) :=
  match read_padding_len s data data_offset with
  | Stop f => Stop f
  | Ok (d1, s1) =>
      match copy_payload s1 data length d1 with
      | Stop f => Stop f
      | Ok (d2, s2) =>
          if d2 =? length then Ok (false, d2, s2)
          else
            let '(d3, s3) := skip_padding s2 length d2 in
            if d3 =? length then Ok (false, d3, s3)
            else copy_header s3 data length d3
      end
  end.

Fixpoint reassemble_loop (fuel : nat) (s : Http2FlowData) (data : list Z)
    (length data_offset : Z) : Run Http2FlowData :=
  match fuel with
  | O => Stop NoFuel
  | S fuel' =>
      match reassemble_pass s data length data_offset with
      | Stop f => Stop f
      | Ok (false, _, s') => Ok s'
      | Ok (true, d, s') =>
          if d <? length then reassemble_loop fuel' s' data length d else Ok s'
      end
  end.

(** The two "first reassemble() for this frame" blocks.  [new uint8_t[n]]
    gives [n] bytes of no particular value; they are 0 here. *)
Definition allocate_header (s : Http2FlowData) (offset : Z) : Http2FlowData :=
  if offset =? 0 then
    let size := wrap32 (FRAME_HEADER_LENGTH * num_frame_headers s) in
    let s1 := set_frame_header_size size s in
    set_frame_header_offset 0
      (if 0 <? size then set_frame_header (replicate (Z.to_nat size) 0) s1 else s1)
  else s.

Definition allocate_data (s : Http2FlowData) (total offset : Z) : Http2FlowData :=
  if offset =? 0 then
    let size := wrap32 (total - frame_header_size s) in
    let s1 := set_frame_data_size size s in
    set_padding_octets_in_frame 0
      (set_remaining_frame_octets (octets_before_first_header s)
         (set_frame_data_offset 0
            (if 0 <? size then set_frame_data (replicate (Z.to_nat size) 0) s1
             else s1)))
  else s.

(** [implement_reassemble]; [pdu_tail] is [flags & PKT_PDU_TAIL].  The
    result is the buffer returned ([None]: null [data]; [Some []]: the
    zero-length non-null buffer) and the flow. *)
Definition implement_reassemble (s : Http2FlowData) (total offset : Z)
    (data : list Z) (pdu_tail : bool) : Run (option (list Z) * Http2FlowData) :=
  let length := len data in
  if negb (wrap32 (offset + length) <=? total) || negb (total <=? MAX_OCTETS)
  then Stop AssertionFailed
  else
    let s1 := allocate_header s offset in
    let body : Run Http2FlowData :=
      if frame_type s1 =? FT_DATA then
        match cutter_reassemble s1 data with
        | (Some buf, s2) => Ok (set_frame_data_size (len buf) (set_frame_data buf s2))
        | (None, s2) => Ok s2
        end
      else if negb (FRAME_HEADER_LENGTH <=? total) then Stop AssertionFailed
      else
        match reassemble_loop (S (List.length data)) (allocate_data s1 total offset)
                data length 0 with
        | Stop f => Stop f
        | Ok s2 =>
            if len (frame_header s2) <? 4 then Stop OutOfBounds
            else Ok (set_frame_type (get_frame_type (frame_header s2)) s2)
        end in
    match body with
    | Stop f => Stop f
    | Ok s3 =>
        if pdu_tail then
          Ok (Some [],
              set_scan_octets_seen 0
                (set_num_frame_headers 0 (set_total_bytes_in_split 0 s3)))
        else Ok (None, s3)
    end.

(** ** Properties of flows, of the collaborators and of the caller *)

(** What holds of the counter between calls: below 24 while the preface is
    awaited, at most 9 afterwards. *)
Definition octets_seen_inv (s : Http2FlowData) : Prop :=
  if preface s then 0 <= scan_octets_seen s < 24
  else 0 <= scan_octets_seen s <= 9.

(** What the invariant asks of the data cutter, which holds a pointer to
    the flow: it leaves [preface] clear and the counter within a header. *)
Definition cutter_keeps_octets_seen : Prop :=
  forall s data fo d frame st fo' d' s',
    cutter_scan s data fo d frame = (st, fo', d', s') ->
    preface s = false -> 0 <= scan_octets_seen s <= 9 ->
    preface s' = false /\ 0 <= scan_octets_seen s' <= 9.

(** [s'] differs from [s] in neither [preface] nor the counter, or has the
    counter reset. *)
Definition counter_kept_or_reset (s s' : Http2FlowData) : Prop :=
  preface s' = preface s
  /\ (scan_octets_seen s' = scan_octets_seen s \/ scan_octets_seen s' = 0).

Definition pass_flow (p : Pass) : Http2FlowData :=
  match p with Leave _ _ s | Test _ _ _ s => s end.

(** The flows a direction can be in: as constructed, or after a call of
    [implement_scan] that returned. *)
Inductive reachable : Http2FlowData -> Prop :=
  | reach_init (client : bool) (e : E) : reachable (flow_init client e)
  | reach_scan (s : Http2FlowData) (fuel : nat) (data : list Z) (fo : Z)
      (st : Status) (fo' : Z) (s' : Http2FlowData) :
      reachable s ->
      implement_scan fuel s data fo = Ok (st, fo', s') ->
      reachable s'.



(** What byte conservation asks of the data cutter: it leaves unsigned
    values behind, and a flush offset inside the chunk it was given. *)
Definition cutter_within_chunk : Prop :=
  forall s data fo d frame st fo' d' s',
    cutter_scan s data fo d frame = (st, fo', d', s') ->
    0 <= scan_remaining_frame_octets s ->
    0 <= d' /\ 0 <= scan_remaining_frame_octets s'
    /\ (st = FLUSH -> 0 <= fo' <= len data).

(** What a pass leaves: a [SEARCH] when it returns from inside the loop,
    else a cursor and a flush offset inside the chunk. *)
Definition pass_within (length : Z) (p : Pass) : Prop :=
  match p with
  | Leave st _ s' => st = SEARCH /\ 0 <= scan_remaining_frame_octets s'
  | Test st fo' d' s' =>
      0 <= d' /\ 0 <= scan_remaining_frame_octets s'
      /\ (st = FLUSH -> 0 <= fo' <= length)
  end.

(** What the caller has counted so far: the sum of the flush offsets it was
    told, the bytes it has released downstream, and the bytes it holds back
    since the last flush. *)
Record Tally : Type := mkTally { flush_offsets : Z; released : Z; held : Z }.

Definition total_len (chunks : list (list Z)) : Z :=
  foldr (fun c n => len c + n) 0 chunks.

(** Modelled from the spec: the caller of [scan] (the stream layer, which is
    not in the source tree).  "Search -- need more bytes": the chunk is held
    back and the next one is scanned.  "Flush -- caller should deliver
    chunk[..flush_offset] to the reassembler (plus any previously-buffered
    bytes) and resume scanning at chunk[flush_offset..]".  "Abort -- caller
    must tear down direction": what is left stays unread.  A chunk with
    nothing (left) in it is not scanned. *)
Inductive drive : Http2FlowData -> Tally -> list (list Z) -> Tally -> Prop :=
  | drive_end (s : Http2FlowData) (a : Tally) : drive s a [] a
  | drive_empty (s : Http2FlowData) (a a' : Tally) (rest : list (list Z)) :
      drive s a rest a' -> drive s a ([] :: rest) a'
  | drive_search (s s' : Http2FlowData) (a a' : Tally) (chunk : list Z)
      (rest : list (list Z)) (fo : Z) :
      chunk <> [] ->
      implement_scan (scan_fuel chunk) s chunk 0 = Ok (SEARCH, fo, s') ->
      drive s' (mkTally (flush_offsets a) (released a) (held a + len chunk))
        rest a' ->
      drive s a (chunk :: rest) a'
  | drive_flush (s s' : Http2FlowData) (a a' : Tally) (chunk : list Z)
      (rest : list (list Z)) (fo : Z) :
      chunk <> [] ->
      implement_scan (scan_fuel chunk) s chunk 0 = Ok (FLUSH, fo, s') ->
      drive s' (mkTally (flush_offsets a + fo) (released a + held a + fo) 0)
        (drop (Z.to_nat fo) chunk :: rest) a' ->
      drive s a (chunk :: rest) a'
  | drive_abort (s s' : Http2FlowData) (a : Tally) (chunk : list Z)
      (rest : list (list Z)) (fo : Z) :
      chunk <> [] ->
      implement_scan (scan_fuel chunk) s chunk 0 = Ok (ABORT, fo, s') ->
      drive s a (chunk :: rest)
        (mkTally (flush_offsets a) (released a)
           (held a + len chunk + total_len rest)).

(** What termination asks of the data cutter: when it asks for more and
    leaves bytes in the chunk, it has moved the cursor. *)
Definition cutter_moves_on : Prop :=
  forall s data fo d frame fo' d' s',
    cutter_scan s data fo d frame = (SEARCH, fo', d', s') ->
    d' < len data -> d < d'.

(** A pass that starts inside a DATA frame or inside a header may consume
    nothing; one that starts a header consumes at least one octet. *)
Definition stall (s : Http2FlowData) : Z :=
  if negb (mid_data_frame s) && (scan_octets_seen s =? 0) then 0 else 1.

Arguments wrap32 : simpl never.
Arguments len : simpl never.
Arguments memcpy : simpl never.
Arguments get_frame_length : simpl never.
Arguments get_frame_type : simpl never.
Arguments get_frame_flags : simpl never.
Arguments get_stream_id : simpl never.

Ltac within_done :=
  repeat split; first [lia | assumption | discriminate].

(** ** Facts: unsigned arithmetic and buffers *)

Lemma wrap32_small (x : Z) : 0 <= x < 2 ^ 32 -> wrap32 x = x.
Proof. intros H. unfold wrap32. apply trunc_small. exact H. Qed.

Lemma wrap32_range (x : Z) : 0 <= wrap32 x < 2 ^ 32.
Proof. unfold wrap32, trunc. apply Z.mod_pos_bound. reflexivity. Qed.

Lemma len_nonneg (l : list Z) : 0 <= len l.
Proof. unfold len. lia. Qed.


Lemma length_connection_prefix : length connection_prefix = 24%nat.
Proof. reflexivity. Qed.

(** ** Facts: the preface *)

(** [validate_preface] on a chunk that cannot overflow the 32-bit sum. *)
Lemma validate_preface_cases (data : list Z) (seen : Z) :
  0 <= seen < 24 -> len data + 24 <= 2 ^ 32 ->
  let expected := drop (Z.to_nat seen) connection_prefix in
  let count := Z.to_nat (Z.min (len data) (24 - seen)) in
  validate_preface data (len data) seen =
    Ok (if bool_decide (take count data = take count expected)
        then (if seen + len data <? 24 then V_TBD else V_GOOD)
        else V_BAD).
Proof.
  intros Hseen Hlen expected count. unfold validate_preface.
  pose proof (len_nonneg data) as Hl.
  destruct (Z.ltb_spec seen 24) as [_ | ?]; [| lia]. cbn [negb].
  rewrite (wrap32_small (seen + len data)) by lia.
  unfold memcmp_eq. fold expected.
  destruct (Z.ltb_spec (seen + len data) 24) as [Hlt | Hge].
  - replace (Z.to_nat (len data)) with count
      by (unfold count; rewrite Z.min_l by lia; reflexivity).
    destruct (bool_decide (take count data = take count expected)); reflexivity.
  - rewrite (wrap32_small (24 - seen)) by lia.
    replace (Z.to_nat (24 - seen)) with count
      by (unfold count; rewrite Z.min_r by lia; reflexivity).
    destruct (bool_decide (take count data = take count expected)); reflexivity.
Qed.

(** C4. The preface phase.  With [seen] octets of the preface already
    matched and a chunk [data], [count] being the number of chunk bytes that
    fall inside the 24-byte prefix: if those bytes match and complete the
    prefix, [implement_scan] returns [FLUSH] with [*flush_offset = 24 - seen],
    clears [preface], sets [payload_discard] and resets the counter; if one
    of them differs it returns [ABORT] and records
    [EVENT_PREFACE_MATCH_FAILURE]; if they match and the prefix is still
    incomplete it returns [SEARCH] and counts the chunk.  The chunk is short
    enough for [seen + length] not to wrap. *)
Theorem preface_phase (fuel : nat) (s : Http2FlowData) (data : list Z)
    (flush_offset : Z) :
  preface s = true ->
  0 <= scan_octets_seen s < 24 ->
  len data + 24 <= 2 ^ 32 ->
  let seen := scan_octets_seen s in
  let expected := drop (Z.to_nat seen) connection_prefix in
  let count := Z.to_nat (Z.min (len data) (24 - seen)) in
  (take count data = take count expected -> 24 <= seen + len data ->
     implement_scan fuel s data flush_offset
       = Ok (FLUSH, 24 - seen,
             set_scan_octets_seen 0
               (set_payload_discard true (set_preface false s))))
  /\ (take count data <> take count expected ->
     implement_scan fuel s data flush_offset
       = Ok (ABORT, flush_offset, add_event EVENT_PREFACE_MATCH_FAILURE s))
  /\ (take count data = take count expected -> seen + len data < 24 ->
     implement_scan fuel s data flush_offset
       = Ok (SEARCH, flush_offset, set_scan_octets_seen (seen + len data) s)).
Proof.
  intros Hpre Hseen Hlen seen expected count.
  pose proof (len_nonneg data) as Hl.
  pose proof (validate_preface_cases data seen Hseen Hlen) as Hv.
  cbv zeta in Hv. fold expected count in Hv.
  unfold implement_scan. rewrite Hpre. fold seen. rewrite Hv.
  repeat split.
  - intros Heq Hfull. rewrite bool_decide_true by exact Heq.
    destruct (Z.ltb_spec (seen + len data) 24); [lia |].
    rewrite wrap32_small by lia. reflexivity.
  - intros Hne. rewrite bool_decide_false by exact Hne. reflexivity.
  - intros Heq Hpart. rewrite bool_decide_true by exact Heq.
    destruct (Z.ltb_spec (seen + len data) 24); [| lia].
    rewrite wrap32_small by lia. reflexivity.
Qed.

(** ** Facts: the header counter [scan_octets_seen] *)

Lemma frame_section_length_counter (s : Http2FlowData) (frame_length type : Z) :
  match frame_section_length s frame_length type with
  | inl s1 | inr s1 =>
      preface s1 = preface s /\ scan_octets_seen s1 = scan_octets_seen s
  end.
Proof.
  unfold frame_section_length.
  destruct (scan_remaining_frame_octets s =? 0); [| split; reflexivity].
  destruct (continuation_expected s && negb (type =? FT_CONTINUATION));
    [split; reflexivity |].
  destruct (MAX_OCTETS <? wrap32 (frame_length + FRAME_HEADER_LENGTH));
    split; reflexivity.
Qed.

Lemma full_frame_status_counter (s : Http2FlowData) (type frame_flags : Z) :
  preface (snd (full_frame_status s type frame_flags)) = preface s
  /\ scan_octets_seen (snd (full_frame_status s type frame_flags))
       = scan_octets_seen s
  /\ scan_remaining_frame_octets (snd (full_frame_status s type frame_flags))
       = scan_remaining_frame_octets s.
Proof.
  unfold full_frame_status.
  destruct (type =? FT_HEADERS).
  { destruct (negb (has_flag frame_flags END_HEADERS)); repeat split; reflexivity. }
  destruct (type =? FT_CONTINUATION); [| repeat split; reflexivity].
  destruct (continuation_expected s); [| repeat split; reflexivity].
  destruct (negb (has_flag frame_flags END_HEADERS)); repeat split; reflexivity.
Qed.

Lemma non_data_scan_counter (s : Http2FlowData)
    (length fo frame_length type frame_flags d : Z)
    (st : Status) (fo' d' : Z) (s' : Http2FlowData) :
  non_data_scan s length fo frame_length type frame_flags d = (st, fo', d', s') ->
  counter_kept_or_reset s s'.
Proof.
  unfold non_data_scan, counter_kept_or_reset. intros H.
  destruct (data_processing s).
  { inversion H; subst. split; [reflexivity | left; reflexivity]. }
  pose proof (frame_section_length_counter s frame_length type) as Hsec.
  destruct (frame_section_length s frame_length type) as [s1 | s1];
    destruct Hsec as [Hp Ho].
  { inversion H; subst. split; [exact Hp | left; exact Ho]. }
  destruct (wrap32 (length - d) <? scan_remaining_frame_octets s1).
  { inversion H; subst. split; [exact Hp | left; exact Ho]. }
  pose proof (full_frame_status_counter s1 type frame_flags) as (Hp2 & _ & _).
  destruct (full_frame_status s1 type frame_flags) as [status s2].
  cbn [snd] in Hp2. inversion H; subst.
  split; [cbn; congruence | right; reflexivity].
Qed.

Lemma data_scan_counter (s : Http2FlowData) (data : list Z)
    (fo frame_length frame_flags d : Z)
    (st : Status) (fo' d' : Z) (s' : Http2FlowData) :
  cutter_keeps_octets_seen ->
  data_scan s data fo frame_length frame_flags d = (st, fo', d', s') ->
  preface s = false -> 0 <= scan_octets_seen s <= 9 ->
  preface s' = false /\ 0 <= scan_octets_seen s' <= 9.
Proof.
  intros Hcut H Hp Ho. unfold data_scan in H.
  destruct (negb (stream_found s) || negb (hi_flow_found s)
            || (0 <? frame_length) && negb (body_expected s)).
  { inversion H; subst. split; [exact Hp | exact Ho]. }
  destruct ((frame_length =? 0) || (MAX_OCTETS <? frame_length)).
  { inversion H; subst. split; [exact Hp | exact Ho]. }
  exact (Hcut _ _ _ _ _ _ _ _ _ H Hp Ho).
Qed.

Lemma scan_pass_counter (s : Http2FlowData) (data : list Z)
    (length fo d : Z) (p : Pass) :
  cutter_keeps_octets_seen ->
  scan_pass s data length fo d = Ok p ->
  preface s = false -> 0 <= scan_octets_seen s <= 9 ->
  preface (pass_flow p) = false /\ 0 <= scan_octets_seen (pass_flow p) <= 9.
Proof.
  intros Hcut H Hp Ho. unfold scan_pass in H.
  destruct (mid_data_frame s).
  { destruct (cutter_scan s data fo d None) as [[[st fo'] d'] s'] eqn:Hcall.
    inversion H; subst. cbn [to_test pass_flow]. exact (Hcut _ _ _ _ _ _ _ _ _ Hcall Hp Ho). }
  set (s1 := if scan_octets_seen s =? 0
             then set_num_frame_headers (wrap32 (num_frame_headers s + 1)) s
             else s) in H.
  assert (preface s1 = false /\ scan_octets_seen s1 = scan_octets_seen s) as [Hp1 Ho1].
  { unfold s1. destruct (scan_octets_seen s =? 0); split; assumption || reflexivity. }
  set (n := if wrap32 (length - d) <? wrap32 (FRAME_HEADER_LENGTH - scan_octets_seen s1)
            then wrap32 (length - d)
            else wrap32 (FRAME_HEADER_LENGTH - scan_octets_seen s1)) in H.
  assert (0 <= n <= 9 - scan_octets_seen s) as Hn.
  { unfold n. rewrite Ho1. unfold FRAME_HEADER_LENGTH.
    rewrite (wrap32_small (9 - scan_octets_seen s)) by lia.
    pose proof (wrap32_range (length - d)).
    destruct (Z.ltb_spec (wrap32 (length - d)) (9 - scan_octets_seen s)); lia. }
  destruct (memcpy (scan_frame_header s1) (scan_octets_seen s1) data d n) as [h | f];
    [| discriminate H].
  set (s2 := set_scan_octets_seen (wrap32 (scan_octets_seen s1 + n))
               (set_scan_frame_header h s1)) in H.
  assert (preface s2 = false /\ 0 <= scan_octets_seen s2 <= 9) as [Hp2 Ho2].
  { unfold s2. cbn. split; [exact Hp1 |]. rewrite Ho1, wrap32_small; lia. }
  destruct (scan_octets_seen s2 <? FRAME_HEADER_LENGTH).
  { inversion H; subst. cbn [pass_flow]. split; assumption. }
  set (s3 := set_current_stream (wrap32 (get_stream_id (scan_frame_header s2)))
               (set_frame_type (to_char (get_frame_type (scan_frame_header s2))) s2)) in H.
  assert (preface s3 = false /\ 0 <= scan_octets_seen s3 <= 9) as [Hp3 Ho3]
    by (unfold s3; cbn; split; assumption).
  destruct (to_char (get_frame_type (scan_frame_header s2)) =? FT_DATA).
  - destruct (data_scan s3 data fo _ _ _) as [[[st fo'] d'] s'] eqn:Hcall.
    inversion H; subst. cbn [to_test pass_flow].
    exact (data_scan_counter _ _ _ _ _ _ _ _ _ _ Hcut Hcall Hp3 Ho3).
  - destruct (non_data_scan s3 length fo _ _ _ _) as [[[st fo'] d'] s'] eqn:Hcall.
    inversion H; subst. cbn [to_test pass_flow].
    destruct (non_data_scan_counter _ _ _ _ _ _ _ _ _ _ _ Hcall) as [Hp' Ho'].
    split; [congruence | destruct Ho'; lia].
Qed.

Lemma scan_loop_counter (fuel : nat) (s : Http2FlowData) (data : list Z)
    (length fo d : Z) (st : Status) (fo' : Z) (s' : Http2FlowData) :
  cutter_keeps_octets_seen ->
  scan_loop fuel s data length fo d = Ok (st, fo', s') ->
  preface s = false -> 0 <= scan_octets_seen s <= 9 ->
  preface s' = false /\ 0 <= scan_octets_seen s' <= 9.
Proof.
  intros Hcut. revert s fo d.
  induction fuel as [| fuel IH]; intros s fo d H Hp Ho; [discriminate H |].
  cbn [scan_loop] in H.
  destruct (scan_pass s data length fo d) as [p | f] eqn:Hcall; [| discriminate H].
  pose proof (scan_pass_counter _ _ _ _ _ _ Hcut Hcall Hp Ho) as [Hp1 Ho1].
  destruct p as [st1 fo1 s1 | st1 fo1 d1 s1]; cbn [pass_flow] in Hp1, Ho1.
  - inversion H; subst. split; assumption.
  - destruct (is_search st1 && (d1 <? length)).
    + exact (IH _ _ _ H Hp1 Ho1).
    + inversion H; subst. split; assumption.
Qed.

(** One call of [implement_scan] keeps the invariant. *)
Lemma implement_scan_counter (fuel : nat) (s : Http2FlowData) (data : list Z)
    (fo : Z) (st : Status) (fo' : Z) (s' : Http2FlowData) :
  cutter_keeps_octets_seen ->
  implement_scan fuel s data fo = Ok (st, fo', s') ->
  octets_seen_inv s -> octets_seen_inv s'.
Proof.
  intros Hcut H Hinv. unfold implement_scan in H. unfold octets_seen_inv in *.
  destruct (preface s) eqn:Hp.
  - unfold validate_preface in H.
    destruct (negb (scan_octets_seen s <? 24)); [discriminate H |].
    destruct (negb (memcmp_eq _ _ _)).
    { inversion H; subst. cbn. rewrite Hp. exact Hinv. }
    destruct (Z.ltb_spec (wrap32 (scan_octets_seen s + len data)) 24) as [Hlt | Hge];
      inversion H; subst; cbn.
    + rewrite Hp. pose proof (wrap32_range (scan_octets_seen s + len data)). lia.
    + lia.
  - destruct (scan_loop_counter _ _ _ _ _ _ _ _ _ Hcut H) as [Hp' Ho'];
      [exact Hp | cbn; exact Hinv |].
    rewrite Hp'. exact Ho'.
Qed.

(** C7, as amended.  Between calls the counter of header octets is at most
    9 once the preface is over (9: the header is complete and its payload is
    awaited), and below 24 while the preface is awaited (the counter then
    counts preface octets). *)
Theorem octets_seen_between_calls (s : Http2FlowData) :
  cutter_keeps_octets_seen ->
  reachable s ->
  (preface s = false -> 0 <= scan_octets_seen s <= 9)
  /\ (preface s = true -> 0 <= scan_octets_seen s < 24).
Proof.
  intros Hcut Hreach.
  assert (octets_seen_inv s) as Hinv.
  { induction Hreach as [client e | s fuel data fo st fo' s' _ IH Hscan].
    - unfold octets_seen_inv. cbn. destruct client; lia.
    - exact (implement_scan_counter _ _ _ _ _ _ _ Hcut Hscan IH). }
  unfold octets_seen_inv in Hinv.
  split; intros Hp; rewrite Hp in Hinv; exact Hinv.
Qed.

(** ** Facts: a frame whose header opens the chunk *)





(** ** Facts: the flush offset stays inside the chunk *)

Lemma frame_section_length_remaining (s : Http2FlowData) (frame_length type : Z) :
  0 <= scan_remaining_frame_octets s -> 0 <= frame_length ->
  match frame_section_length s frame_length type with
  | inl s1 | inr s1 => 0 <= scan_remaining_frame_octets s1
  end.
Proof.
  intros Hrem Hfl. unfold frame_section_length.
  destruct (scan_remaining_frame_octets s =? 0); [| exact Hrem].
  destruct (continuation_expected s && negb (type =? FT_CONTINUATION));
    [exact Hrem |].
  destruct (MAX_OCTETS <? wrap32 (frame_length + FRAME_HEADER_LENGTH));
    [exact Hrem | exact Hfl].
Qed.

Lemma non_data_scan_within (s : Http2FlowData)
    (length fo frame_length type frame_flags d : Z)
    (st : Status) (fo' d' : Z) (s' : Http2FlowData) :
  0 <= d <= length -> length < 2 ^ 32 ->
  0 <= scan_remaining_frame_octets s -> 0 <= frame_length ->
  non_data_scan s length fo frame_length type frame_flags d = (st, fo', d', s') ->
  0 <= d' /\ 0 <= scan_remaining_frame_octets s'
  /\ (st = FLUSH -> 0 <= fo' <= length).
Proof.
  intros Hd Hlen Hrem Hfl H. unfold non_data_scan in H.
  destruct (data_processing s).
  { inversion H; subst. within_done. }
  pose proof (frame_section_length_remaining s frame_length type Hrem Hfl) as Hrem1.
  destruct (frame_section_length s frame_length type) as [s1 | s1].
  { inversion H; subst. within_done. }
  rewrite (wrap32_small (length - d)) in H by lia.
  destruct (Z.ltb_spec (length - d) (scan_remaining_frame_octets s1)) as [Hlt | Hge].
  { pose proof (wrap32_range (scan_remaining_frame_octets s1 - (length - d))).
    inversion H; subst. cbn. within_done. }
  pose proof (full_frame_status_counter s1 type frame_flags) as (_ & _ & Hrem2).
  destruct (full_frame_status s1 type frame_flags) as [status s2].
  cbn [snd] in Hrem2. inversion H; subst. rewrite Hrem2.
  rewrite wrap32_small by lia. cbn. lia.
Qed.

Lemma data_scan_within (s : Http2FlowData) (data : list Z)
    (fo frame_length frame_flags d : Z)
    (st : Status) (fo' d' : Z) (s' : Http2FlowData) :
  cutter_within_chunk ->
  0 <= d -> 0 <= scan_remaining_frame_octets s ->
  data_scan s data fo frame_length frame_flags d = (st, fo', d', s') ->
  0 <= d' /\ 0 <= scan_remaining_frame_octets s'
  /\ (st = FLUSH -> 0 <= fo' <= len data).
Proof.
  intros Hcut Hd Hrem H. unfold data_scan in H.
  destruct (negb (stream_found s) || negb (hi_flow_found s)
            || (0 <? frame_length) && negb (body_expected s)).
  { inversion H; subst. within_done. }
  destruct ((frame_length =? 0) || (MAX_OCTETS <? frame_length)).
  { inversion H; subst. within_done. }
  exact (Hcut _ _ _ _ _ _ _ _ _ H Hrem).
Qed.

Lemma scan_pass_within (s : Http2FlowData) (data : list Z) (fo d : Z) (p : Pass) :
  cutter_within_chunk ->
  0 <= d <= len data -> len data < 2 ^ 32 ->
  0 <= scan_remaining_frame_octets s ->
  scan_pass s data (len data) fo d = Ok p ->
  pass_within (len data) p.
Proof.
  intros Hcut Hd Hlen Hrem H. unfold scan_pass in H.
  destruct (mid_data_frame s).
  { destruct (cutter_scan s data fo d None) as [[[st fo'] d'] s'] eqn:Hcall.
    inversion H; subst. cbn [to_test pass_within].
    exact (Hcut _ _ _ _ _ _ _ _ _ Hcall Hrem). }
  set (s1 := if scan_octets_seen s =? 0
             then set_num_frame_headers (wrap32 (num_frame_headers s + 1)) s
             else s) in H.
  assert (scan_remaining_frame_octets s1 = scan_remaining_frame_octets s) as Hrem1.
  { unfold s1. destruct (scan_octets_seen s =? 0); reflexivity. }
  set (n := if wrap32 (len data - d) <? wrap32 (FRAME_HEADER_LENGTH - scan_octets_seen s1)
            then wrap32 (len data - d)
            else wrap32 (FRAME_HEADER_LENGTH - scan_octets_seen s1)) in H.
  assert (0 <= n <= len data - d) as Hn.
  { unfold n. rewrite (wrap32_small (len data - d)) by lia.
    pose proof (wrap32_range (FRAME_HEADER_LENGTH - scan_octets_seen s1)).
    destruct (Z.ltb_spec (len data - d)
                (wrap32 (FRAME_HEADER_LENGTH - scan_octets_seen s1))); lia. }
  destruct (memcpy (scan_frame_header s1) (scan_octets_seen s1) data d n) as [h | f];
    [| discriminate H].
  set (s2 := set_scan_octets_seen (wrap32 (scan_octets_seen s1 + n))
               (set_scan_frame_header h s1)) in H.
  assert (scan_remaining_frame_octets s2 = scan_remaining_frame_octets s) as Hrem2
    by (unfold s2; cbn; exact Hrem1).
  destruct (scan_octets_seen s2 <? FRAME_HEADER_LENGTH).
  { inversion H; subst. cbn [pass_within]. split; [reflexivity | lia]. }
  set (s3 := set_current_stream (wrap32 (get_stream_id (scan_frame_header s2)))
               (set_frame_type (to_char (get_frame_type (scan_frame_header s2))) s2)) in H.
  assert (scan_remaining_frame_octets s3 = scan_remaining_frame_octets s) as Hrem3
    by (unfold s3; cbn; exact Hrem2).
  rewrite (wrap32_small (d + n)) in H by lia.
  destruct (to_char (get_frame_type (scan_frame_header s2)) =? FT_DATA).
  - destruct (data_scan s3 data fo _ _ _) as [[[st fo'] d'] s'] eqn:Hcall.
    inversion H; subst. cbn [to_test pass_within].
    apply (data_scan_within _ _ _ _ _ _ _ _ _ _ Hcut) in Hcall; [exact Hcall | lia | lia].
  - destruct (non_data_scan s3 (len data) fo _ _ _ _) as [[[st fo'] d'] s'] eqn:Hcall.
    inversion H; subst. cbn [to_test pass_within].
    pose proof (wrap32_range (get_frame_length (scan_frame_header s2))).
    apply non_data_scan_within in Hcall; [exact Hcall | lia ..].
Qed.

Lemma scan_loop_within (fuel : nat) (s : Http2FlowData) (data : list Z)
    (fo d : Z) (st : Status) (fo' : Z) (s' : Http2FlowData) :
  cutter_within_chunk ->
  len data < 2 ^ 32 ->
  0 <= d <= len data -> 0 <= scan_remaining_frame_octets s ->
  scan_loop fuel s data (len data) fo d = Ok (st, fo', s') ->
  0 <= scan_remaining_frame_octets s' /\ (st = FLUSH -> 0 <= fo' <= len data).
Proof.
  intros Hcut Hlen. revert s fo d.
  induction fuel as [| fuel IH]; intros s fo d Hd Hrem H; [discriminate H |].
  cbn [scan_loop] in H.
  destruct (scan_pass s data (len data) fo d) as [p | f] eqn:Hpass; [| discriminate H].
  pose proof (scan_pass_within _ _ _ _ _ Hcut Hd Hlen Hrem Hpass) as Hp.
  destruct p as [st1 fo1 s1 | st1 fo1 d1 s1]; cbn [pass_within] in Hp.
  - inversion H; subst. destruct Hp as [-> ?]. split; [assumption | discriminate].
  - destruct Hp as (Hd1 & Hrem1 & Hfl).
    destruct (is_search st1 && (d1 <? len data)) eqn:Hgo.
    + apply andb_true_iff in Hgo as [_ Hlt]. apply Z.ltb_lt in Hlt.
      apply (IH s1 fo1 d1); [lia | assumption | exact H].
    + inversion H; subst. split; assumption.
Qed.

Lemma implement_scan_within (fuel : nat) (s : Http2FlowData) (data : list Z)
    (fo : Z) (st : Status) (fo' : Z) (s' : Http2FlowData) :
  cutter_within_chunk ->
  len data + 24 <= 2 ^ 32 ->
  octets_seen_inv s -> 0 <= scan_remaining_frame_octets s ->
  implement_scan fuel s data fo = Ok (st, fo', s') ->
  0 <= scan_remaining_frame_octets s' /\ (st = FLUSH -> 0 <= fo' <= len data).
Proof.
  intros Hcut Hlen Hinv Hrem H. pose proof (len_nonneg data) as Hl.
  unfold implement_scan in H. unfold octets_seen_inv in Hinv.
  destruct (preface s) eqn:Hp.
  - rewrite validate_preface_cases in H by lia.
    destruct (bool_decide _).
    + destruct (Z.ltb_spec (scan_octets_seen s + len data) 24);
        inversion H; subst; cbn; (split; [exact Hrem |]).
      * discriminate.
      * intros _. rewrite wrap32_small by lia. lia.
    + inversion H; subst. cbn. split; [exact Hrem | discriminate].
  - apply scan_loop_within in H; try assumption; try lia.
Qed.

(** ** The caller of [scan] and byte conservation *)

Lemma len_drop (l : list Z) (n : Z) :
  0 <= n <= len l -> len (drop (Z.to_nat n) l) = len l - n.
Proof. intros H. unfold len in *. rewrite length_drop. lia. Qed.

Lemma total_len_cons (c : list Z) (cs : list (list Z)) :
  total_len (c :: cs) = len c + total_len cs.
Proof. reflexivity. Qed.

(** Over a run of the caller nothing is released twice and nothing is lost. *)
Lemma drive_conserves (s : Http2FlowData) (a a' : Tally)
    (chunks : list (list Z)) :
  cutter_keeps_octets_seen -> cutter_within_chunk ->
  octets_seen_inv s -> 0 <= scan_remaining_frame_octets s ->
  Forall (fun c => len c + 24 <= 2 ^ 32) chunks ->
  drive s a chunks a' ->
  released a' + held a' = released a + held a + total_len chunks.
Proof.
  intros Hkeep Hin Hinv Hrem Hsize Hdrive.
  induction Hdrive
    as [s a | s a a' rest _ IH
        | s s' a a' chunk rest fo Hne Hscan _ IH
        | s s' a a' chunk rest fo Hne Hscan _ IH
        | s s' a chunk rest fo Hne Hscan].
  - change (total_len []) with 0. lia.
  - inversion Hsize; subst. rewrite IH by assumption.
    rewrite total_len_cons. change (len []) with 0. lia.
  - inversion Hsize as [| c cs Hc Hcs]; subst.
    pose proof (implement_scan_counter _ _ _ _ _ _ _ Hkeep Hscan Hinv) as Hinv'.
    pose proof (implement_scan_within _ _ _ _ _ _ _ Hin Hc Hinv Hrem Hscan) as [Hrem' _].
    rewrite IH by assumption. rewrite total_len_cons. cbn [released held]. lia.
  - inversion Hsize as [| c cs Hc Hcs]; subst.
    pose proof (implement_scan_counter _ _ _ _ _ _ _ Hkeep Hscan Hinv) as Hinv'.
    pose proof (implement_scan_within _ _ _ _ _ _ _ Hin Hc Hinv Hrem Hscan)
      as [Hrem' Hfo].
    specialize (Hfo eq_refl).
    rewrite IH; try assumption.
    + rewrite !total_len_cons, len_drop by exact Hfo. cbn [released held]. lia.
    + constructor; [| assumption]. rewrite len_drop by exact Hfo. lia.
  - rewrite total_len_cons. cbn [released held]. lia.
Qed.

(** C1, as amended.  Every flush offset lies inside the chunk it was
    returned for, and so, over any run of the caller, the bytes released by
    the [FLUSH] verdicts (each flush offset together with the bytes held
    back since the flush before) plus the bytes still held at the end are
    the bytes delivered. *)
Theorem bytes_conserved (s : Http2FlowData) :
  cutter_keeps_octets_seen -> cutter_within_chunk ->
  octets_seen_inv s -> 0 <= scan_remaining_frame_octets s ->
  (forall fuel data fo fo' s',
     len data + 24 <= 2 ^ 32 ->
     implement_scan fuel s data fo = Ok (FLUSH, fo', s') ->
     0 <= fo' <= len data)
  /\ (forall a a' chunks,
        Forall (fun c => len c + 24 <= 2 ^ 32) chunks ->
        drive s a chunks a' ->
        released a' + held a' = released a + held a + total_len chunks).
Proof.
  intros Hkeep Hin Hinv Hrem. split.
  - intros fuel data fo fo' s' Hlen Hscan.
    exact (proj2 (implement_scan_within _ _ _ _ _ _ _ Hin Hlen Hinv Hrem Hscan)
             eq_refl).
  - intros a a' chunks Hsize Hdrive.
    exact (drive_conserves s a a' chunks Hkeep Hin Hinv Hrem Hsize Hdrive).
Qed.

(** ** Facts: the loop of [implement_scan] comes to an end *)

Lemma non_data_scan_search (s : Http2FlowData)
    (length fo frame_length type frame_flags d : Z)
    (fo' d' : Z) (s' : Http2FlowData) :
  0 <= d <= length -> length < 2 ^ 32 ->
  0 <= scan_remaining_frame_octets s -> 0 <= frame_length ->
  non_data_scan s length fo frame_length type frame_flags d = (SEARCH, fo', d', s') ->
  d' < length ->
  d <= d' /\ stall s' = if mid_data_frame s then 1 else 0.
Proof.
  intros Hd Hlen Hrem Hfl H Hmore. unfold non_data_scan in H.
  destruct (data_processing s); [discriminate H |].
  pose proof (frame_section_length_remaining s frame_length type Hrem Hfl) as Hrem1.
  assert (match frame_section_length s frame_length type with
          | inl s1 | inr s1 => mid_data_frame s1 = mid_data_frame s
          end) as Hmid1.
  { unfold frame_section_length.
    destruct (scan_remaining_frame_octets s =? 0); [| reflexivity].
    destruct (continuation_expected s && negb (type =? FT_CONTINUATION));
      [reflexivity |].
    destruct (MAX_OCTETS <? wrap32 (frame_length + FRAME_HEADER_LENGTH)); reflexivity. }
  destruct (frame_section_length s frame_length type) as [s1 | s1];
    [discriminate H |].
  rewrite (wrap32_small (length - d)) in H by lia.
  destruct (Z.ltb_spec (length - d) (scan_remaining_frame_octets s1)) as [Hlt | Hge].
  { inversion H; subst. lia. }
  pose proof (full_frame_status_counter s1 type frame_flags) as (_ & _ & Hrem2).
  assert (mid_data_frame (snd (full_frame_status s1 type frame_flags))
          = mid_data_frame s1) as Hmid2.
  { unfold full_frame_status.
    destruct (type =? FT_HEADERS).
    { destruct (negb (has_flag frame_flags END_HEADERS)); reflexivity. }
    destruct (type =? FT_CONTINUATION); [| reflexivity].
    destruct (continuation_expected s1); [| reflexivity].
    destruct (negb (has_flag frame_flags END_HEADERS)); reflexivity. }
  destruct (full_frame_status s1 type frame_flags) as [status s2].
  cbn [snd] in Hrem2, Hmid2. inversion H; subst. rewrite Hrem2.
  rewrite wrap32_small by lia. split; [lia |].
  unfold stall. cbn. rewrite Hmid2, Hmid1.
  destruct (mid_data_frame s); reflexivity.
Qed.

Lemma stall_range (s : Http2FlowData) : 0 <= stall s <= 1.
Proof.
  unfold stall.
  destruct (negb (mid_data_frame s) && (scan_octets_seen s =? 0)); lia.
Qed.

(** A pass after which the loop goes round again has paid for it. *)
Lemma scan_pass_progress (s : Http2FlowData) (data : list Z) (fo d : Z)
    (fo' d' : Z) (s' : Http2FlowData) :
  cutter_within_chunk -> cutter_moves_on ->
  0 <= d <= len data -> len data < 2 ^ 32 ->
  0 <= scan_remaining_frame_octets s ->
  scan_pass s data (len data) fo d = Ok (Test SEARCH fo' d' s') ->
  d' < len data ->
  2 * (len data - d') + stall s' < 2 * (len data - d) + stall s.
Proof.
  intros Hin Hmove Hd Hlen Hrem H Hmore.
  pose proof (stall_range s') as Hs'. pose proof (stall_range s) as Hs.
  unfold scan_pass in H.
  destruct (mid_data_frame s) eqn:Hmid.
  { destruct (cutter_scan s data fo d None) as [[[st fo1] d1] s1] eqn:Hcall.
    inversion H; subst.
    pose proof (Hmove _ _ _ _ _ _ _ _ Hcall Hmore).
    unfold stall at 2. rewrite Hmid. cbn [negb andb]. lia. }
  set (s1 := if scan_octets_seen s =? 0
             then set_num_frame_headers (wrap32 (num_frame_headers s + 1)) s
             else s) in H.
  assert (scan_remaining_frame_octets s1 = scan_remaining_frame_octets s
          /\ scan_octets_seen s1 = scan_octets_seen s
          /\ mid_data_frame s1 = false) as (Hrem1 & Hos1 & Hmid1).
  { unfold s1. destruct (scan_octets_seen s =? 0); repeat split; assumption || reflexivity. }
  set (n := if wrap32 (len data - d) <? wrap32 (FRAME_HEADER_LENGTH - scan_octets_seen s1)
            then wrap32 (len data - d)
            else wrap32 (FRAME_HEADER_LENGTH - scan_octets_seen s1)) in H.
  assert (0 <= n <= len data - d
          /\ (scan_octets_seen s = 0 -> d < len data -> 1 <= n)) as [Hn Hn1].
  { unfold n. rewrite (wrap32_small (len data - d)) by lia. rewrite Hos1.
    pose proof (wrap32_range (FRAME_HEADER_LENGTH - scan_octets_seen s)).
    split.
    - destruct (Z.ltb_spec (len data - d)
                  (wrap32 (FRAME_HEADER_LENGTH - scan_octets_seen s))); lia.
    - intros Hz Hlt. rewrite Hz. change (wrap32 (FRAME_HEADER_LENGTH - 0)) with 9.
      destruct (Z.ltb_spec (len data - d) 9); lia. }
  destruct (memcpy (scan_frame_header s1) (scan_octets_seen s1) data d n) as [h | f];
    [| discriminate H].
  set (s2 := set_scan_octets_seen (wrap32 (scan_octets_seen s1 + n))
               (set_scan_frame_header h s1)) in H.
  destruct (scan_octets_seen s2 <? FRAME_HEADER_LENGTH); [discriminate H |].
  set (s3 := set_current_stream (wrap32 (get_stream_id (scan_frame_header s2)))
               (set_frame_type (to_char (get_frame_type (scan_frame_header s2))) s2)) in H.
  assert (scan_remaining_frame_octets s3 = scan_remaining_frame_octets s
          /\ mid_data_frame s3 = false) as [Hrem3 Hmid3]
    by (unfold s3, s2; cbn; split; assumption).
  rewrite (wrap32_small (d + n)) in H by lia.
  assert (stall s = 0 -> 1 <= n \/ len data <= d) as Hpaid.
  { unfold stall. rewrite Hmid. cbn [negb andb].
    destruct (Z.eqb_spec (scan_octets_seen s) 0) as [Hz | Hnz]; [| discriminate].
    intros _. destruct (Z.lt_ge_cases d (len data)); [left; auto | right; lia]. }
  destruct (to_char (get_frame_type (scan_frame_header s2)) =? FT_DATA).
  - unfold data_scan in H.
    destruct (negb (stream_found s3) || negb (hi_flow_found s3)
              || (0 <? wrap32 (get_frame_length (scan_frame_header s2)))
                 && negb (body_expected s3)); [discriminate H |].
    destruct ((wrap32 (get_frame_length (scan_frame_header s2)) =? 0)
              || (MAX_OCTETS <? wrap32 (get_frame_length (scan_frame_header s2))));
      [discriminate H |].
    destruct (cutter_scan s3 data fo (d + n) _) as [[[st fo1] d1] s4] eqn:Hcall.
    inversion H; subst.
    pose proof (Hmove _ _ _ _ _ _ _ _ Hcall Hmore). lia.
  - destruct (non_data_scan s3 (len data) fo _ _ _ _) as [[[st fo1] d1] s4] eqn:Hcall.
    inversion H; subst.
    pose proof (wrap32_range (get_frame_length (scan_frame_header s2))).
    apply non_data_scan_search in Hcall; [| lia ..].
    destruct Hcall as [Hle Hst]. rewrite Hmid3 in Hst.
    destruct (Z.eq_dec (stall s) 0) as [Hz | Hnz]; [| lia].
    destruct (Hpaid Hz); lia.
Qed.

Lemma scan_loop_has_fuel (fuel : nat) (s : Http2FlowData) (data : list Z) (fo d : Z) :
  cutter_within_chunk -> cutter_moves_on ->
  len data < 2 ^ 32 ->
  0 <= d <= len data -> 0 <= scan_remaining_frame_octets s ->
  2 * (len data - d) + stall s < Z.of_nat fuel ->
  scan_loop fuel s data (len data) fo d <> Stop NoFuel.
Proof.
  intros Hin Hmove Hlen. revert s fo d.
  induction fuel as [| fuel IH]; intros s fo d Hd Hrem Hfuel.
  { pose proof (stall_range s). lia. }
  cbn [scan_loop].
  destruct (scan_pass s data (len data) fo d) as [p | f] eqn:Hpass.
  2:{ unfold scan_pass in Hpass.
      destruct (mid_data_frame s); [discriminate Hpass |].
      destruct (memcpy _ _ _ _ _) as [h | f0] eqn:Hcpy.
      - destruct (_ <? FRAME_HEADER_LENGTH); [discriminate Hpass |].
        destruct (_ =? FT_DATA); discriminate Hpass.
      - unfold memcpy in Hcpy. destruct (_ && _); [discriminate Hcpy |].
        inversion Hcpy; subst. inversion Hpass; subst. discriminate. }
  pose proof (scan_pass_within _ _ _ _ _ Hin Hd Hlen Hrem Hpass) as Hp.
  destruct p as [st1 fo1 s1 | st1 fo1 d1 s1]; [discriminate |].
  cbn [pass_within] in Hp. destruct Hp as (Hd1 & Hrem1 & _).
  destruct (is_search st1 && (d1 <? len data)) eqn:Hgo; [| discriminate].
  apply andb_true_iff in Hgo as [Hst Hlt]. apply Z.ltb_lt in Hlt.
  destruct st1; try discriminate Hst.
  pose proof (scan_pass_progress _ _ _ _ _ _ _ Hin Hmove Hd Hlen Hrem Hpass Hlt).
  apply IH; [lia | assumption | lia].
Qed.

(** With [scan_fuel] the model of [implement_scan] never stops for want of
    fuel: the loop of the code ends. *)
Lemma implement_scan_has_fuel (s : Http2FlowData) (data : list Z) (fo : Z) :
  cutter_within_chunk -> cutter_moves_on ->
  len data < 2 ^ 32 -> 0 <= scan_remaining_frame_octets s ->
  implement_scan (scan_fuel data) s data fo <> Stop NoFuel.
Proof.
  intros Hin Hmove Hlen Hrem. unfold implement_scan.
  destruct (preface s).
  - unfold validate_preface.
    destruct (negb (scan_octets_seen s <? 24)); [discriminate |].
    destruct (negb (memcmp_eq _ _ _)); [discriminate |].
    destruct (_ <? 24); discriminate.
  - pose proof (len_nonneg data).
    apply scan_loop_has_fuel; try assumption; try lia.
    pose proof (stall_range (set_octets_before_first_header 0 s)).
    unfold scan_fuel, len in *. lia.
Qed.

End Splitter.

(** ** A direction with no DATA traffic *)

(** Collaborators for the examples: no stream is known, so [data_scan]
    refuses every DATA frame and the cutter is never reached; should it be
    called it aborts and touches nothing.  [MAX_OCTETS] is 63780. *)
Definition no_stream (s : Http2FlowData unit) : bool := false.

Definition refusing_cutter (s : Http2FlowData unit) (data : list Z) (fo d : Z)
    (frame : option (Z * Z)) : Status * Z * Z * Http2FlowData unit :=
  (ABORT, fo, wrap32 d, s).

Definition refusing_reassemble (s : Http2FlowData unit) (data : list Z)
  : option (list Z) * Http2FlowData unit := (None, s).

Definition scan (s : Http2FlowData unit) (data : list Z)
  : Run (Status * Z * Http2FlowData unit) :=
  implement_scan unit 63780 no_stream no_stream no_stream refusing_cutter
    (scan_fuel data) s data 0.

Definition reassemble (s : Http2FlowData unit) (total offset : Z)
    (data : list Z) (pdu_tail : bool)
  : Run (option (list Z) * Http2FlowData unit) :=
  implement_reassemble unit 63780 refusing_reassemble s total offset data pdu_tail.

(** The flow of [scan]'s result, the flow given when it has none. *)
Definition flow_after (s : Http2FlowData unit) (data : list Z)
  : Http2FlowData unit :=
  match scan s data with
  | Ok (_, _, s') => s'
  | Stop _ => s
  end.

(** A SETTINGS header announcing six octets of payload. *)
Definition settings_header_6 : list Z := [0; 0; 6; 4; 0; 0; 0; 0; 0].

(** An empty SETTINGS frame cut after its fifth octet. *)
Definition settings_part1 : list Z := [0; 0; 0; 4; 0].
Definition settings_part2 : list Z := [0; 0; 0; 0].


Lemma refusing_cutter_keeps_octets_seen :
  cutter_keeps_octets_seen unit refusing_cutter.
Proof.
  intros s data fo d frame st fo' d' s' H Hp Ho.
  unfold refusing_cutter in H. inversion H; subst. split; assumption.
Qed.

Lemma refusing_cutter_within_chunk :
  cutter_within_chunk unit refusing_cutter.
Proof.
  intros s data fo d frame st fo' d' s' H Hrem.
  unfold refusing_cutter in H. inversion H; subst.
  pose proof (wrap32_range d). repeat split; first [lia | discriminate].
Qed.

(** The header of an empty SETTINGS frame arriving in two chunks: [SEARCH]
    for the first five octets, [FLUSH] with offset 4 for the other four. *)
Lemma drive_split_header :
  drive unit 63780 no_stream no_stream no_stream refusing_cutter
    (flow_init unit false tt) (mkTally 0 0 0)
    [settings_part1; settings_part2] (mkTally 4 9 0).
Proof.
  eapply drive_search; [discriminate | vm_compute; reflexivity |].
  eapply drive_flush with (fo := 4); [discriminate | vm_compute; reflexivity |].
  cbn [flush_offsets released held]. apply drive_empty. apply drive_end.
Qed.

(** C1 as stated fails: over the two chunks above the flush offsets sum to
    4, nothing is left unread, and 9 bytes were delivered. *)
Lemma flush_offsets_do_not_add_up :
  exists a',
    drive unit 63780 no_stream no_stream no_stream refusing_cutter
      (flow_init unit false tt) (mkTally 0 0 0)
      [settings_part1; settings_part2] a'
    /\ held a' = 0
    /\ flush_offsets a' + held a' = 4
    /\ total_len [settings_part1; settings_part2] = 9.
Proof.
  exists (mkTally 4 9 0). split; [exact drive_split_header |].
  repeat split; reflexivity.
Qed.

Lemma bytes_conserved_witness :
  released (mkTally 4 9 0) + held (mkTally 4 9 0)
    = released (mkTally 0 0 0) + held (mkTally 0 0 0)
      + total_len [settings_part1; settings_part2].
Proof.
  refine (proj2 (bytes_conserved unit 63780 no_stream no_stream no_stream
                   refusing_cutter (flow_init unit false tt)
                   refusing_cutter_keeps_octets_seen refusing_cutter_within_chunk
                   _ _) _ _ _ _ drive_split_header).
  - unfold octets_seen_inv. cbn. lia.
  - cbn. lia.
  - repeat constructor; vm_compute; discriminate.
Defined.

(** The preface arriving in three chunks, the last one ending with an empty
    SETTINGS frame: [SEARCH], [SEARCH], [FLUSH] with offset 2 (24 - 22),
    then [FLUSH] with offset 9 for the frame; 33 bytes delivered, 33
    released, the flush offsets summing to 11. *)
Example preface_in_three_chunks :
  drive unit 63780 no_stream no_stream no_stream refusing_cutter
    (flow_init unit true tt) (mkTally 0 0 0)
    [ bytes "PRI * HT";
      bytes "TP/2.0" ++ [13; 10; 13; 10] ++ bytes "SM" ++ [13; 10];
      [13; 10] ++ [0; 0; 0; 4; 0; 0; 0; 0; 0] ]
    (mkTally 11 33 0).
Proof.
  eapply drive_search; [discriminate | vm_compute; reflexivity |].
  eapply drive_search; [discriminate | vm_compute; reflexivity |].
  eapply drive_flush with (fo := 2); [discriminate | vm_compute; reflexivity |].
  eapply drive_flush with (fo := 9); [discriminate | vm_compute; reflexivity |].
  apply drive_empty. apply drive_end.
Qed.

(** C4 at work: 22 octets of the preface seen, the chunk brings the last two
    and a SETTINGS frame; [FLUSH] with offset 2. *)
Lemma preface_phase_witness :
  implement_scan unit 63780 no_stream no_stream no_stream refusing_cutter 1
    (set_scan_octets_seen unit 22 (flow_init unit true tt))
    ([13; 10] ++ [0; 0; 0; 4; 0; 0; 0; 0; 0]) 0
  = Ok (FLUSH, 24 - 22,
        set_scan_octets_seen unit 0
          (set_payload_discard unit true
             (set_preface unit false
                (set_scan_octets_seen unit 22 (flow_init unit true tt))))).
Proof.
  refine (proj1 (preface_phase unit 63780 no_stream no_stream no_stream
                   refusing_cutter 1
                   (set_scan_octets_seen unit 22 (flow_init unit true tt))
                   ([13; 10] ++ [0; 0; 0; 4; 0; 0; 0; 0; 0]) 0 _ _ _) _ _).
  - reflexivity.
  - cbn. lia.
  - vm_compute. discriminate.
  - reflexivity.
  - vm_compute. discriminate.
Defined.


(** C7 as stated fails: after the nine octets of a header whose payload is
    still to come the counter is 9, and after fourteen octets of the
    preface it is 14. *)
Lemma octets_seen_reaches_nine :
  (exists s,
     reachable unit 63780 no_stream no_stream no_stream refusing_cutter s
     /\ preface unit s = false /\ scan_octets_seen unit s = 9)
  /\ (exists s,
     reachable unit 63780 no_stream no_stream no_stream refusing_cutter s
     /\ preface unit s = true /\ scan_octets_seen unit s = 14).
Proof.
  split.
  - eexists. split.
    + eapply (reach_scan unit 63780 no_stream no_stream no_stream refusing_cutter
                (flow_init unit false tt) 3 settings_header_6 0).
      * apply reach_init.
      * vm_compute. reflexivity.
    + split; reflexivity.
  - eexists. split.
    + eapply (reach_scan unit 63780 no_stream no_stream no_stream refusing_cutter
                (flow_init unit true tt) 3 (bytes "PRI * HTTP/2.0") 0).
      * apply reach_init.
      * vm_compute. reflexivity.
    + split; reflexivity.
Qed.

Lemma reachable_after_settings_header :
  reachable unit 63780 no_stream no_stream no_stream refusing_cutter
    (flow_after (flow_init unit false tt) settings_header_6).
Proof.
  eapply (reach_scan unit 63780 no_stream no_stream no_stream refusing_cutter
            (flow_init unit false tt) (scan_fuel settings_header_6)
            settings_header_6 0).
  - apply reach_init.
  - vm_compute. reflexivity.
Qed.

Lemma octets_seen_between_calls_witness :
  0 <= scan_octets_seen unit (flow_after (flow_init unit false tt) settings_header_6)
    <= 9.
Proof.
  refine (proj1 (octets_seen_between_calls unit 63780 no_stream no_stream
                   no_stream refusing_cutter _
                   refusing_cutter_keeps_octets_seen
                   reachable_after_settings_header) _).
  reflexivity.
Defined.

(** ** Padding in reassembly *)

(** One HEADERS frame, PADDED and END_HEADERS: pad length 1, payload 11 22,
    one octet AA of padding. *)
Definition padded_headers : list Z :=
  [0; 0; 4; 1; 0x0C; 0; 0; 0; 1] ++ [1; 0x11; 0x22; 0xAA].

(** The same HEADERS frame without END_HEADERS, followed by a CONTINUATION
    frame with END_HEADERS and payload 33 44. *)
Definition padded_headers_continuation : list Z :=
  [0; 0; 4; 1; 0x08; 0; 0; 0; 1] ++ [1; 0x11; 0x22; 0xAA]
  ++ [0; 0; 2; 9; 0x04; 0; 0; 0; 1] ++ [0x33; 0x44].

(** One HEADERS frame, PADDED and END_HEADERS: pad length 2, payload 11 22,
    padding AA BB; it arrives in two segments, the second holding BB. *)
Definition padded_headers_2 : list Z :=
  [0; 0; 5; 1; 0x0C; 0; 0; 0; 1] ++ [2; 0x11; 0x22; 0xAA; 0xBB].

(** The part of [frame_data] that has been written. *)
Definition written_data (s : Http2FlowData unit) : list Z :=
  take (Z.to_nat (frame_data_offset unit s)) (frame_data unit s).

(** A single padded frame delivered whole is reassembled as the claim has
    it: the pad length and the padding are left out, the size is reduced by
    [pad length + 1]. *)
Lemma padding_elided_single_frame :
  exists s1 s2,
    scan (flow_init unit false tt) padded_headers = Ok (FLUSH, 13, s1)
    /\ reassemble s1 13 0 padded_headers true = Ok (Some [], s2)
    /\ written_data s2 = [0x11; 0x22]
    /\ frame_data_size unit s2 = 4 - (1 + 1).
Proof.
  eexists. eexists.
  split; [vm_compute; reflexivity |].
  split; [vm_compute; reflexivity |].
  split; vm_compute; reflexivity.
Qed.

(** C3 (the code departs from it).  (1) In a PDU of a PADDED HEADERS frame
    and a CONTINUATION frame, [implement_reassemble] takes the flags from
    [scan_frame_header], which holds the CONTINUATION header: the HEADERS
    frame is not treated as padded, its pad length 01 and its padding AA are
    copied into [frame_data], and [frame_data_size] is not reduced.
    (2) When a segment ends inside the padding, the next call computes
    [remaining_frame_octets - padding_octets_in_frame] below zero in
    unsigned arithmetic and copies the rest of the padding (BB) into
    [frame_data], past [frame_data_size]. *)
Theorem padding_reaches_frame_data :
  (exists s1 s2,
     scan (flow_init unit false tt) padded_headers_continuation
       = Ok (FLUSH, 24, s1)
     /\ has_flag (get_frame_flags (scan_frame_header unit s1)) PADDED = false
     /\ reassemble s1 24 0 padded_headers_continuation true = Ok (Some [], s2)
     /\ written_data s2 = [1; 0x11; 0x22; 0xAA; 0x33; 0x44]
     /\ frame_data_size unit s2 = 24 - 18)
  /\ (exists s1 s2 s3 s4 fo,
     scan (flow_init unit false tt) (take 13 padded_headers_2) = Ok (SEARCH, fo, s1)
     /\ scan s1 (drop 13 padded_headers_2) = Ok (FLUSH, 1, s2)
     /\ reassemble s2 14 0 (take 13 padded_headers_2) false = Ok (None, s3)
     /\ written_data s3 = [0x11; 0x22]
     /\ reassemble s3 14 13 (drop 13 padded_headers_2) true = Ok (Some [], s4)
     /\ written_data s4 = [0x11; 0x22; 0xBB]
     /\ frame_data_size unit s4 = 2
     /\ frame_data_offset unit s4 = 3).
Proof.
  split.
  - eexists. eexists.
    split; [vm_compute; reflexivity |].
    split; [vm_compute; reflexivity |].
    split; [vm_compute; reflexivity |].
    split; vm_compute; reflexivity.
  - eexists. eexists. eexists. eexists. eexists.
    split; [vm_compute; reflexivity |].
    split; [vm_compute; reflexivity |].
    split; [vm_compute; reflexivity |].
    split; [vm_compute; reflexivity |].
    split; [vm_compute; reflexivity |].
    split; [vm_compute; reflexivity |].
    split; vm_compute; reflexivity.
Qed.

End H2.
